(** * The virtio-net frontend of hyperkit (src/lib/pci_virtio_net.c)

    A shallow embedding of the device state, of the receive and transmit
    handlers, of the reset and feature-negotiation callbacks, of the
    config-space write callback and of the attach routine, followed by the
    properties of the datapath engine.

    The frontend talks to two collaborators whose code lives elsewhere
    (virtio.c for the virtqueues, net_backends.c for the transport).  Their
    calls are recorded, in program order, in a trace kept in the [world];
    what they answer is read from the [world] as well. *)

From Stdlib Require Import ZArith String Ascii Lia.
From stdpp Require Import base list.

Open Scope Z_scope.

(** ** Constants of the file *)

Definition VTNET_RINGSZ : Z := 1024.
Definition VTNET_MAXSEGS : Z := 256.
Definition VTNET_MAXQ : Z := 3.

(** [uint32_t] and [unsigned int] arithmetic wraps modulo 2^32. *)
Definition UINT32_MOD : Z := 2 ^ 32.
Definition INT_MIN : Z := - 2 ^ 31.
Definition INT_MAX : Z := 2 ^ 31 - 1.
Definition in_int (z : Z) : bool := (INT_MIN <=? z) && (z <=? INT_MAX).

(** Modelled from the spec: [struct virtio_net_rxhdr] is declared in
    net_backends.h, which is not part of the sources at hand.  The spec gives
    the two receive-header lengths as 10 and 12 bytes, the long one being the
    merged-buffer header, whose size is what [sizeof] yields here. *)
Definition sizeof_virtio_net_rxhdr : Z := 12.

(** [static uint8_t dummybuf[65536+64]] of [pci_vtnet_rx_discard]. *)
Definition sizeof_dummybuf : Z := 65536 + 64.

(** [sizeof(sc->vsc_config.mac)] for [uint8_t mac[6]]. *)
Definition sizeof_mac : Z := 6.

(** ** Device state *)

(** [struct virtio_net_config]: the PCI config-space "registers". *)
Record virtio_net_config := mk_config {
  mac : list Z;                 (* uint8_t mac[6] *)
  status : Z;                   (* uint16_t *)
  max_virtqueue_pairs : Z       (* uint16_t *)
}.

(** [struct pci_vtnet_softc], without the mutexes, the condition variable and
    the thread id.  The two queues and the generic [virtio_softc] belong to
    virtio.c and are kept in the [world] below.  [vsc_be] is the backend
    pointer: [None] stands for NULL. *)
Record pci_vtnet_softc := mk_softc {
  vsc_be : option Z;
  vsc_rx_ready : Z;
  resetting : Z;
  vsc_features : Z;
  rx_vhdrlen : Z;
  rx_merge : Z;
  tx_in_progress : Z;
  vsc_config : virtio_net_config
}.

Definition set_vsc_be (v : option Z) (sc : pci_vtnet_softc) :=
  mk_softc v (vsc_rx_ready sc) (resetting sc) (vsc_features sc)
           (rx_vhdrlen sc) (rx_merge sc) (tx_in_progress sc) (vsc_config sc).
Definition set_vsc_rx_ready (v : Z) (sc : pci_vtnet_softc) :=
  mk_softc (vsc_be sc) v (resetting sc) (vsc_features sc)
           (rx_vhdrlen sc) (rx_merge sc) (tx_in_progress sc) (vsc_config sc).
Definition set_resetting (v : Z) (sc : pci_vtnet_softc) :=
  mk_softc (vsc_be sc) (vsc_rx_ready sc) v (vsc_features sc)
           (rx_vhdrlen sc) (rx_merge sc) (tx_in_progress sc) (vsc_config sc).
Definition set_vsc_features (v : Z) (sc : pci_vtnet_softc) :=
  mk_softc (vsc_be sc) (vsc_rx_ready sc) (resetting sc) v
           (rx_vhdrlen sc) (rx_merge sc) (tx_in_progress sc) (vsc_config sc).
Definition set_rx_vhdrlen (v : Z) (sc : pci_vtnet_softc) :=
  mk_softc (vsc_be sc) (vsc_rx_ready sc) (resetting sc) (vsc_features sc)
           v (rx_merge sc) (tx_in_progress sc) (vsc_config sc).
Definition set_rx_merge (v : Z) (sc : pci_vtnet_softc) :=
  mk_softc (vsc_be sc) (vsc_rx_ready sc) (resetting sc) (vsc_features sc)
           (rx_vhdrlen sc) v (tx_in_progress sc) (vsc_config sc).
Definition set_tx_in_progress (v : Z) (sc : pci_vtnet_softc) :=
  mk_softc (vsc_be sc) (vsc_rx_ready sc) (resetting sc) (vsc_features sc)
           (rx_vhdrlen sc) (rx_merge sc) v (vsc_config sc).
Definition set_vsc_config (v : virtio_net_config) (sc : pci_vtnet_softc) :=
  mk_softc (vsc_be sc) (vsc_rx_ready sc) (resetting sc) (vsc_features sc)
           (rx_vhdrlen sc) (rx_merge sc) (tx_in_progress sc) v.

Definition set_mac (m : list Z) (c : virtio_net_config) :=
  mk_config m (status c) (max_virtqueue_pairs c).
Definition set_status (v : Z) (c : virtio_net_config) :=
  mk_config (mac c) v (max_virtqueue_pairs c).

(** What [calloc] hands to [pci_vtnet_init]: every field zero, [mac] six zero
    bytes. *)
Definition softc_calloc : pci_vtnet_softc :=
  mk_softc None 0 0 0 0 0 0 (mk_config (replicate 6 0) 0 0).

(** ** Scatter/gather vectors and queues *)

(** What an [iov_base] points to: the discard buffer of this file, or guest
    memory at some address. *)
Inductive buffer :=
| dummybuf
| guest_mem (gpa : Z).

Record iovec := mk_iovec { iov_base : buffer; iov_len : Z }.

(** The two queues of the device ([VTNET_RXQ] is 0, [VTNET_TXQ] is 1). *)
Inductive vq_id := VTNET_RXQ | VTNET_TXQ.

(** A descriptor chain posted by the guest: its head index and its
    descriptors, as the guest wrote them (any number of them). *)
Record chain := mk_chain { ch_idx : Z; ch_descs : list iovec }.

(** Modelled from the spec: the Queue Adapter ([struct vqueue_info] and the
    [vq_*] calls of virtio.c, not part of the sources at hand).  A queue is
    the sequence of chains the guest has made available and the position
    [vq_last_avail] up to which the host has pulled them. *)
Record vqueue_info := mk_vq { vq_ring : list chain; vq_last_avail : nat }.

(** ** Calls on the collaborators, as recorded in the trace *)

Inductive event :=
| EvHasDescs (q : vq_id) (r : bool)
| EvGetchain (q : vq_id) (n_iov : Z) (n : Z) (idx : Z)
| EvRetchain (q : vq_id)
| EvRelchain (q : vq_id) (idx : Z) (len : Z)
| EvEndchains (q : vq_id) (used_all_avail : Z)
| EvRecv (be : option Z) (iov : list iovec) (iovcnt : Z) (r : Z)
| EvSend (be : option Z) (iov : list iovec) (iovcnt : Z) (len : Z) (more : Z)
| EvSetCap (be : option Z) (features : Z) (vhdrlen : Z)
| EvResetDev
| EvUsleep (usec : Z)
| EvSoftcLinkup (hv_caps : Z)
| EvSetIoBar (barnum : Z)
| EvTxThreadCreate.

(** Everything outside the softc.  [w_recv] holds what the next calls of
    [netbe_recv] return; [w_tx_in_progress] holds what the next reads of
    [sc->tx_in_progress] by another thread than the transmit thread see (the
    transmit thread writes that field concurrently). *)
Record world := mk_world {
  w_rxq : vqueue_info;
  w_txq : vqueue_info;
  w_recv : list Z;
  w_tx_in_progress : list Z;
  w_trace : list event
}.

Definition get_vq (q : vq_id) (w : world) : vqueue_info :=
  match q with VTNET_RXQ => w_rxq w | VTNET_TXQ => w_txq w end.

Definition set_vq (q : vq_id) (v : vqueue_info) (w : world) : world :=
  match q with
  | VTNET_RXQ => mk_world v (w_txq w) (w_recv w) (w_tx_in_progress w) (w_trace w)
  | VTNET_TXQ => mk_world (w_rxq w) v (w_recv w) (w_tx_in_progress w) (w_trace w)
  end.

Definition set_w_recv (l : list Z) (w : world) : world :=
  mk_world (w_rxq w) (w_txq w) l (w_tx_in_progress w) (w_trace w).

Definition set_w_tx_in_progress (l : list Z) (w : world) : world :=
  mk_world (w_rxq w) (w_txq w) (w_recv w) l (w_trace w).

Definition emit (e : event) (w : world) : world :=
  mk_world (w_rxq w) (w_txq w) (w_recv w) (w_tx_in_progress w) (w_trace w ++ [e]).

(** ** The monad of the handlers *)

(** How a call can fail to return: a failed [assert], behaviour the C
    standard leaves undefined, or a wait that does not end. *)
Inductive fault := AssertionFailed | UndefinedBehaviour | Blocked.

Inductive result (A : Type) :=
| Ok (a : A) (w : world)
| Fault (f : fault) (w : world).
Arguments Ok {A} a w.
Arguments Fault {A} f w.

Definition M (A : Type) : Type := world -> result A.

Definition ret {A} (a : A) : M A := fun w => Ok a w.

Definition bind {A B} (m : M A) (k : A -> M B) : M B :=
  fun w => match m w with
           | Ok a w' => k a w'
           | Fault f w' => Fault f w'
           end.

Definition raise {A} (f : fault) : M A := fun w => Fault f w.

Declare Scope vtnet_scope.
Delimit Scope vtnet_scope with vtnet.
Notation "x <- c1 ;; c2" := (bind c1 (fun x => c2))
  (at level 100, c1 at next level, right associativity) : vtnet_scope.
Notation "c1 ;; c2" := (bind c1 (fun _ => c2))
  (at level 100, right associativity) : vtnet_scope.
Open Scope vtnet_scope.

Definition log (e : event) : M unit := fun w => Ok tt (emit e w).

(** [assert(b)]. *)
Definition assert (b : bool) : M unit :=
  if b then ret tt else raise AssertionFailed.

Definition result_world {A} (r : result A) : world :=
  match r with Ok _ w => w | Fault _ w => w end.

(** ** The Queue Adapter *)

(** Chains made available by the guest and not yet pulled. *)
Definition vq_pending (v : vqueue_info) : list chain :=
  drop (vq_last_avail v) (vq_ring v).

(** Modelled from the spec: [vq_has_descs(vq)] of virtio.c, the
    has-descriptors test of the Queue Adapter. *)
Definition vq_has_descs (q : vq_id) : M bool := fun w =>
  let r := match vq_pending (get_vq q w) with [] => false | _ :: _ => true end in
  Ok r (emit (EvHasDescs q r) w).

(** What [vq_getchain] hands back: its return value, [*pidx] and the
    entries of [iov] it filled. *)
Record getchain_result := mk_getchain { gc_n : Z; gc_idx : Z; gc_iov : list iovec }.

(** Modelled from the spec: [vq_getchain(vq, &idx, iov, n_iov, NULL)] of
    virtio.c, the pull of the Queue Adapter.  With nothing available it
    returns 0; otherwise it pulls the next chain, returns the number of its
    descriptors and stores at most [n_iov] of them in [iov]. *)
Definition vq_getchain (q : vq_id) (n_iov : Z) : M getchain_result := fun w =>
  let v := get_vq q w in
  match vq_pending v with
  | [] => Ok (mk_getchain 0 0 []) (emit (EvGetchain q n_iov 0 0) w)
  | c :: _ =>
      let n := Z.of_nat (length (ch_descs c)) in
      Ok (mk_getchain n (ch_idx c) (take (Z.to_nat n_iov) (ch_descs c)))
         (emit (EvGetchain q n_iov n (ch_idx c))
               (set_vq q (mk_vq (vq_ring v) (S (vq_last_avail v))) w))
  end.

(** Modelled from the spec: [vq_retchain(vq)] of virtio.c; the chain pulled
    last is available again. *)
Definition vq_retchain (q : vq_id) : M unit := fun w =>
  let v := get_vq q w in
  Ok tt (emit (EvRetchain q) (set_vq q (mk_vq (vq_ring v) (pred (vq_last_avail v))) w)).

(** Modelled from the spec: [vq_relchain(vq, idx, len)] of virtio.c;
    publish chain [idx] as used, with [len] bytes. *)
Definition vq_relchain (q : vq_id) (idx len : Z) : M unit :=
  log (EvRelchain q idx len).

(** Modelled from the spec: [vq_endchains(vq, used_all_avail)] of virtio.c,
    the interrupt flush of the Queue Adapter; its second argument is the
    force flag. *)
Definition vq_endchains (q : vq_id) (used_all_avail : Z) : M unit :=
  log (EvEndchains q used_all_avail).

(** Modelled from the spec: [vi_reset_dev(&sc->vsc_vs)] of virtio.c; rings,
    vectors and negotiated capabilities of the generic layer start afresh. *)
Definition vi_reset_dev : M unit := fun w =>
  Ok tt (emit EvResetDev (set_vq VTNET_TXQ (mk_vq [] 0) (set_vq VTNET_RXQ (mk_vq [] 0) w))).

(** ** The Backend Adapter *)

(** Modelled from the spec: [netbe_recv(be, iov, iovcnt)] of
    net_backends.c; the length received, 0 for no data, a negative value
    for an error.  When [w_recv] has run out there is no data. *)
Definition netbe_recv (be : option Z) (iov : list iovec) (iovcnt : Z) : M Z := fun w =>
  let r := default 0 (head (w_recv w)) in
  Ok r (emit (EvRecv be iov iovcnt r) (set_w_recv (tail (w_recv w)) w)).

(** Modelled from the spec: [netbe_send(be, iov, iovcnt, len, more)] of
    net_backends.c; the handler ignores what it returns. *)
Definition netbe_send (be : option Z) (iov : list iovec) (iovcnt len more : Z) : M unit :=
  log (EvSend be iov iovcnt len more).

(** Modelled from the spec: [netbe_set_cap(be, features, vnet_hdr_len)] of
    net_backends.c. *)
Definition netbe_set_cap (be : option Z) (features vhdrlen : Z) : M unit :=
  log (EvSetCap be features vhdrlen).

Definition usleep (usec : Z) : M unit := log (EvUsleep usec).

(** ** Reset *)

(** [pci_vtnet_txwait]: poll [sc->tx_in_progress] under the transmit lock,
    sleeping 10 ms between two polls.  The values polled are those the
    transmit thread leaves in the field; when they run out with the flag
    still set the wait has not ended. *)
Fixpoint pci_vtnet_txwait_poll (polls : list Z) (sc : pci_vtnet_softc) : M pci_vtnet_softc :=
  match polls with
  | [] => raise Blocked
  | v :: rest =>
      let sc := set_tx_in_progress v sc in
      if negb (v =? 0) then
        fun w => (usleep 10000 ;; pci_vtnet_txwait_poll rest sc) (set_w_tx_in_progress rest w)
      else
        fun w => Ok sc (set_w_tx_in_progress rest w)
  end.

Definition pci_vtnet_txwait (sc : pci_vtnet_softc) : M pci_vtnet_softc :=
  fun w => pci_vtnet_txwait_poll (w_tx_in_progress w) sc w.

(** [pci_vtnet_rxwait]: lock and unlock the receive mutex.  The receive
    handler runs under that mutex, so this returns once no handler runs. *)
Definition pci_vtnet_rxwait (sc : pci_vtnet_softc) : M unit := ret tt.

(** [pci_vtnet_reset], the handler for virtio_reset. *)
Definition pci_vtnet_reset (sc : pci_vtnet_softc) : M pci_vtnet_softc :=
  let sc := set_resetting 1 sc in
  sc <- pci_vtnet_txwait sc ;;
  pci_vtnet_rxwait sc ;;
  let sc := set_vsc_rx_ready 0 sc in
  let sc := set_rx_merge 1 sc in
  let sc := set_rx_vhdrlen sizeof_virtio_net_rxhdr sc in
  vi_reset_dev ;;
  ret (set_resetting 0 sc).

(** ** Receive *)

(** [pci_vtnet_rx_discard]: one receive into the discard buffer. *)
Definition pci_vtnet_rx_discard (sc : pci_vtnet_softc) : M unit :=
  let iov := [mk_iovec dummybuf sizeof_dummybuf] in
  netbe_recv (vsc_be sc) iov 1 ;;
  ret tt.

(** How the do-while loop of [pci_vtnet_rx] is left: by [return], by
    [break], or because its condition is false. *)
Inductive loop_exit := LoopReturn | LoopBreak | LoopEnd.

(** The do-while loop of [pci_vtnet_rx]; [fuel] bounds the number of
    rounds. *)
Fixpoint pci_vtnet_rx_loop (fuel : nat) (sc : pci_vtnet_softc) : M loop_exit :=
  match fuel with
  | O => raise Blocked
  | S fuel =>
      gc <- vq_getchain VTNET_RXQ VTNET_MAXSEGS ;;
      let n := gc_n gc in
      assert ((1 <=? n) && (n <=? VTNET_MAXSEGS)) ;;
      len <- netbe_recv (vsc_be sc) (gc_iov gc) n ;;
      if len <? 0 then ret LoopBreak
      else if len =? 0 then
        vq_retchain VTNET_RXQ ;;
        vq_endchains VTNET_RXQ 0 ;;
        ret LoopReturn
      else
        vq_relchain VTNET_RXQ (gc_idx gc) len ;;
        more <- vq_has_descs VTNET_RXQ ;;
        if more : bool then pci_vtnet_rx_loop fuel sc else ret LoopEnd
  end.

(** [pci_vtnet_rx].  Each round of the loop pulls one chain, so the number
    of chains pending at its start bounds the number of rounds. *)
Definition pci_vtnet_rx (sc : pci_vtnet_softc) : M unit :=
  if (vsc_rx_ready sc =? 0) || negb (resetting sc =? 0) then
    pci_vtnet_rx_discard sc
  else
    has <- vq_has_descs VTNET_RXQ ;;
    if negb has then
      pci_vtnet_rx_discard sc ;;
      vq_endchains VTNET_RXQ 1
    else
      e <- (fun w => pci_vtnet_rx_loop (length (vq_pending (w_rxq w))) sc w) ;;
      match e with
      | LoopReturn => ret tt
      | LoopBreak | LoopEnd => vq_endchains VTNET_RXQ 1
      end.

(** ** Transmit *)

(** The [for] loop of [pci_vtnet_proctx]: [len += iov[i].iov_len] in
    [uint32_t]. *)
Definition proctx_len (iov : list iovec) (n : Z) : Z :=
  fold_left (fun len v => (len + iov_len v) mod UINT32_MOD) (take (Z.to_nat n) iov) 0.

(** [pci_vtnet_proctx]: one chain of the transmit queue. *)
Definition pci_vtnet_proctx (sc : pci_vtnet_softc) : M unit :=
  gc <- vq_getchain VTNET_TXQ VTNET_MAXSEGS ;;
  let n := gc_n gc in
  assert ((1 <=? n) && (n <=? VTNET_MAXSEGS)) ;;
  let len := proctx_len (gc_iov gc) n in
  netbe_send (vsc_be sc) (gc_iov gc) n len 0 ;;
  vq_relchain VTNET_TXQ (gc_idx gc) len.

(** ** Feature negotiation *)

Section Negotiation.

(** The merged-receive-buffer feature bit, a macro of net_backends.h. *)
Variable VIRTIO_NET_F_MRG_RXBUF : Z.

(** [pci_vtnet_neg_features]. *)
Definition pci_vtnet_neg_features (sc : pci_vtnet_softc) (negotiated_features : Z)
  : M pci_vtnet_softc :=
  let sc := set_vsc_features negotiated_features sc in
  let sc :=
    if Z.land negotiated_features VIRTIO_NET_F_MRG_RXBUF =? 0 then
      let sc := set_rx_merge 0 sc in
      (* non-merge rx header is 2 bytes shorter *)
      set_rx_vhdrlen ((rx_vhdrlen sc - 2) mod UINT32_MOD) sc
    else sc in
  netbe_set_cap (vsc_be sc) negotiated_features (rx_vhdrlen sc) ;;
  ret sc.

End Negotiation.

(** ** Config space *)

(** The first [size] bytes of a [uint32_t] in memory (the host is
    little-endian). *)
Definition le_bytes (value : Z) (size : nat) : list Z :=
  (fun k => Z.land (Z.shiftr value (8 * Z.of_nat k)) 255) <$> seq 0 size.

(** The bytes of the register block [struct virtio_net_config], in memory
    order. *)
Definition config_bytes (c : virtio_net_config) : list Z :=
  mac c ++ le_bytes (status c) 2 ++ le_bytes (max_virtqueue_pairs c) 2.

(** [pci_vtnet_cfgwrite].  [offset + size] is computed in [int];
    [memcpy(ptr, &value, size)] reads [size] bytes of the four of [value] and
    writes them from [mac[offset]] on. *)
Definition pci_vtnet_cfgwrite (sc : pci_vtnet_softc) (offset size value : Z)
  : M (Z * pci_vtnet_softc) :=
  if offset <? sizeof_mac then
    if negb (in_int (offset + size)) then raise UndefinedBehaviour else
    assert (offset + size <=? sizeof_mac) ;;
    if (offset <? 0) || (size <? 0) || (4 <? size) then raise UndefinedBehaviour else
    let m := list_inserts (Z.to_nat offset) (le_bytes value (Z.to_nat size))
                          (mac (vsc_config sc)) in
    ret (0, set_vsc_config (set_mac m (vsc_config sc)) sc)
  else
    (* silently ignore other writes *)
    ret (0, sc).

(** ** Attach *)

(** [strsep(&s, delim)] for a one-character [delim]: the token before the
    first delimiter, and what follows it ([None] for NULL when there is no
    delimiter). *)
Fixpoint strsep (s : string) (delim : ascii) : string * option string :=
  match s with
  | EmptyString => (EmptyString, None)
  | String c rest =>
      if Ascii.eqb c delim then (EmptyString, Some rest)
      else let (tok, r) := strsep rest delim in (String c tok, r)
  end.

Record pci_devinst := mk_pi { pi_slot : Z; pi_func : Z }.

Section Attach.

(** Collaborators of the attach routine, from net_utils.c, net_backends.c
    and virtio.c: MAC parsing (error code and bytes) and generation,
    opening the backend ([None] for NULL), its capabilities, interrupt
    setup, and the capability macro of this file, made of macros of
    virtio.h. *)
Variable net_parsemac : string -> Z * list Z.
Variable net_genmac : pci_devinst -> list Z.
Variable netbe_init : string -> option Z.
Variable netbe_get_cap : Z -> Z.
Variable vi_intr_init : Z -> Z -> Z.
Variable fbsdrun_virtio_msix : Z.
Variable VTNET_S_HOSTCAPS : Z.

(** The [if (opts != NULL)] block of [pci_vtnet_init]: the error code of
    the MAC parser, [mac_provided], the softc and [vc->vc_hv_caps]. *)
Definition init_opts (sc : pci_vtnet_softc) (hv_caps : Z) (opts : option string)
  : Z * bool * pci_vtnet_softc * Z :=
  match opts with
  | None => (0, false, sc, hv_caps)
  | Some o =>
      let (devname, vtopts) := strsep o ","%char in
      let '(err, mac_provided, sc) :=
        match vtopts with
        | Some m =>
            let (err, bytes) := net_parsemac m in
            (err, true, set_vsc_config (set_mac bytes (vsc_config sc)) sc)
        | None => (0, false, sc)
        end in
      if negb (err =? 0) then (err, mac_provided, sc, hv_caps)
      else
        let sc := set_vsc_be (netbe_init devname) sc in
        let hv_caps :=
          match vsc_be sc with
          | None => hv_caps   (* net backend initialization failed *)
          | Some be => Z.lor hv_caps (netbe_get_cap be)
          end in
        (0, mac_provided, sc, hv_caps)
  end.

(** [pci_vtnet_init]: the value returned and the softc allocated.  The
    writes to the PCI configuration header ([pci_set_cfgdata*]) and the
    initialisation of the mutexes are left out. *)
Definition pci_vtnet_init (pi : pci_devinst) (opts : option string)
  : M (Z * pci_vtnet_softc) :=
  let '(err, mac_provided, sc, hv_caps) :=
    init_opts softc_calloc VTNET_S_HOSTCAPS opts in
  if negb (err =? 0) then ret (err, sc) else
  let sc :=
    if mac_provided : bool then sc
    else set_vsc_config (set_mac (net_genmac pi) (vsc_config sc)) sc in
  (* Link is up if we managed to open backend device. *)
  let up := match opts, vsc_be sc with
            | None, _ => 1
            | Some _, Some _ => 1
            | Some _, None => 0
            end in
  let sc := set_vsc_config (set_status up (vsc_config sc)) sc in
  log (EvSoftcLinkup hv_caps) ;;
  if negb (vi_intr_init 1 fbsdrun_virtio_msix =? 0) then ret (1, sc) else
  log (EvSetIoBar 0) ;;
  let sc := set_resetting 0 sc in
  let sc := set_rx_merge 1 sc in
  let sc := set_rx_vhdrlen sizeof_virtio_net_rxhdr sc in
  let sc := set_tx_in_progress 0 sc in
  log EvTxThreadCreate ;;
  ret (0, sc).

End Attach.

(** ** Queue notifications and the transmit thread *)

Section Notify.

(** The flag of the used ring that tells the guest not to notify, a macro
    of virtio.h. *)
Variable VRING_USED_F_NO_NOTIFY : Z.

(** [vq->vq_used->vu_flags |= VRING_USED_F_NO_NOTIFY] on the [uint16_t]
    flags word of a used ring. *)
Definition vu_flags_set (vu_flags : Z) : Z :=
  Z.lor vu_flags VRING_USED_F_NO_NOTIFY mod 2 ^ 16.

(** [vq->vq_used->vu_flags &= ~VRING_USED_F_NO_NOTIFY]. *)
Definition vu_flags_clear (vu_flags : Z) : Z :=
  Z.land vu_flags (Z.lnot VRING_USED_F_NO_NOTIFY) mod 2 ^ 16.

(** [pci_vtnet_ping_rxq], the notify callback of the receive queue: the
    softc and the flags word of the queue's used ring, before and after. *)
Definition pci_vtnet_ping_rxq (sc : pci_vtnet_softc) (vu_flags : Z)
  : pci_vtnet_softc * Z :=
  (* A qnotify means that the rx process can now begin *)
  if vsc_rx_ready sc =? 0 then
    (set_vsc_rx_ready 1 sc, vu_flags_set vu_flags)
  else (sc, vu_flags).

(** [pci_vtnet_ping_txq], the notify callback of the transmit queue: the
    flags word afterwards, and whether [tx_cond] was signalled. *)
Definition pci_vtnet_ping_txq (sc : pci_vtnet_softc) (vu_flags : Z) : M (Z * bool) :=
  (* Any ring entries to process? *)
  has <- vq_has_descs VTNET_TXQ ;;
  if negb has then ret (vu_flags, false)
  else
    (* Signal the tx thread for processing *)
    ret (vu_flags_set vu_flags, tx_in_progress sc =? 0).

(** The do-while loop of [pci_vtnet_tx_thread]; [fuel] bounds the number
    of rounds. *)
Fixpoint pci_vtnet_tx_drain (fuel : nat) (sc : pci_vtnet_softc) : M unit :=
  match fuel with
  | O => raise Blocked
  | S fuel =>
      pci_vtnet_proctx sc ;;
      more <- vq_has_descs VTNET_TXQ ;;
      if more : bool then pci_vtnet_tx_drain fuel sc else ret tt
  end.

(** How one turn of the transmit thread ends: in [pthread_cond_wait], or
    back at the head of its [for (;;)] loop after a burst. *)
Inductive tx_turn := TxWaits | TxDrained.

(** One turn of [pci_vtnet_tx_thread]: from the test of its [while] loop
    (the transmit mutex held) to the next [pthread_cond_wait] or, through a
    burst, to the head of the [for (;;)] loop again.  [resetting] is read as
    the softc has it; each round of the burst pulls one chain, so the number
    of chains pending at its start bounds the number of rounds. *)
Definition pci_vtnet_tx_thread_turn (sc : pci_vtnet_softc) (vu_flags : Z)
  : M (tx_turn * pci_vtnet_softc * Z) :=
  let burst (vu_flags : Z) : M (tx_turn * pci_vtnet_softc * Z) :=
    let vu_flags := vu_flags_set vu_flags in
    let sc := set_tx_in_progress 1 sc in
    (fun w => pci_vtnet_tx_drain (length (vq_pending (w_txq w))) sc w) ;;
    (* Generate an interrupt if needed. *)
    vq_endchains VTNET_TXQ 1 ;;
    ret (TxDrained, sc, vu_flags) in
  (* while (sc->resetting || !vq_has_descs(vq)) *)
  idle <- (if negb (resetting sc =? 0) then ret true
           else has <- vq_has_descs VTNET_TXQ ;; ret (negb has)) ;;
  if idle : bool then
    let vu_flags := vu_flags_clear vu_flags in
    (* if (!sc->resetting && vq_has_descs(vq)) break; *)
    go <- (if negb (resetting sc =? 0) then ret false
           else vq_has_descs VTNET_TXQ) ;;
    if go : bool then burst vu_flags
    else ret (TxWaits, set_tx_in_progress 0 sc, vu_flags)
  else burst vu_flags.

End Notify.

(** ** Config-space reads *)

(** [sizeof(struct virtio_net_config)]: six bytes and two [uint16_t]. *)
Definition sizeof_virtio_net_config : Z := 10.

(** The [uint32_t] whose bytes in memory are [bytes]. *)
Definition le_combine (bytes : list Z) : Z :=
  foldr (fun b acc => b + 256 * acc) 0 bytes.

(** [pci_vtnet_cfgread]: the value returned and [*retval], which holds
    [retval] before the call.  [memcpy(retval, ptr, size)] overwrites the
    first [size] of the four bytes of [*retval] with those of the register
    block from [offset] on; a window outside the block, or wider than
    [*retval], is outside what C defines. *)
Definition pci_vtnet_cfgread (sc : pci_vtnet_softc) (offset size retval : Z)
  : M (Z * Z) :=
  if (offset <? 0) || (size <? 0) || (4 <? size)
     || (sizeof_virtio_net_config <? offset + size)
  then raise UndefinedBehaviour
  else
    let window := take (Z.to_nat size)
                       (drop (Z.to_nat offset) (config_bytes (vsc_config sc))) in
    ret (0, le_combine (window ++ drop (Z.to_nat size) (le_bytes retval 4))).

(** * Vocabulary of the properties *)

(** ** Outcomes and traces of the receive handler *)

Definition outcome {A} (r : result A) : A + fault :=
  match r with Ok a _ => inl a | Fault f _ => inr f end.

Definition in_segs (n : Z) : Prop := 1 <= n <= VTNET_MAXSEGS.

(** The calls one run of the do-while loop of [pci_vtnet_rx] makes, and how
    the run ends: rounds that publish a chain and find more descriptors,
    then a last round. *)
Inductive rx_loop_run (be : option Z) : list event -> loop_exit + fault -> Prop :=
| run_assert n idx :
    ~ in_segs n ->
    rx_loop_run be [EvGetchain VTNET_RXQ VTNET_MAXSEGS n idx] (inr AssertionFailed)
| run_break n idx iov len :
    in_segs n -> len < 0 ->
    rx_loop_run be [EvGetchain VTNET_RXQ VTNET_MAXSEGS n idx; EvRecv be iov n len]
                (inl LoopBreak)
| run_return n idx iov :
    in_segs n ->
    rx_loop_run be [EvGetchain VTNET_RXQ VTNET_MAXSEGS n idx; EvRecv be iov n 0;
                    EvRetchain VTNET_RXQ; EvEndchains VTNET_RXQ 0]
                (inl LoopReturn)
| run_end n idx iov len :
    in_segs n -> 0 < len ->
    rx_loop_run be [EvGetchain VTNET_RXQ VTNET_MAXSEGS n idx; EvRecv be iov n len;
                    EvRelchain VTNET_RXQ idx len; EvHasDescs VTNET_RXQ false]
                (inl LoopEnd)
| run_more n idx iov len evs k :
    in_segs n -> 0 < len -> rx_loop_run be evs k ->
    rx_loop_run be (EvGetchain VTNET_RXQ VTNET_MAXSEGS n idx :: EvRecv be iov n len ::
                    EvRelchain VTNET_RXQ idx len :: EvHasDescs VTNET_RXQ true :: evs)
                k.

(** What follows the loop in [pci_vtnet_rx]. *)
Definition rx_epilogue (k : loop_exit + fault) : list event :=
  match k with
  | inl LoopReturn => []
  | inl LoopBreak | inl LoopEnd => [EvEndchains VTNET_RXQ 1]
  | inr _ => []
  end.

Definition rx_outcome (k : loop_exit + fault) : unit + fault :=
  match k with inl _ => inl tt | inr f => inr f end.

(** The scatter/gather vector of [pci_vtnet_rx_discard]. *)
Definition discard_iov : list iovec := [mk_iovec dummybuf sizeof_dummybuf].

(** The calls one run of [pci_vtnet_rx] makes: a discard when the device is
    not ready or resets, a discard and a flush when no buffer is posted, a
    run of the loop and its epilogue otherwise. *)
Inductive rx_run (sc : pci_vtnet_softc) : list event -> unit + fault -> Prop :=
| rx_discarded r :
    vsc_rx_ready sc = 0 \/ resetting sc <> 0 ->
    rx_run sc [EvRecv (vsc_be sc) discard_iov 1 r] (inl tt)
| rx_no_buffers r :
    vsc_rx_ready sc <> 0 -> resetting sc = 0 ->
    rx_run sc [EvHasDescs VTNET_RXQ false; EvRecv (vsc_be sc) discard_iov 1 r;
               EvEndchains VTNET_RXQ 1] (inl tt)
| rx_filled evs k :
    vsc_rx_ready sc <> 0 -> resetting sc = 0 ->
    rx_loop_run (vsc_be sc) evs k ->
    rx_run sc (EvHasDescs VTNET_RXQ true :: evs ++ rx_epilogue k) (rx_outcome k).

(** ** Pulled chains and how they are settled *)

Definition pulls (e : event) : bool :=
  match e with EvGetchain _ _ _ _ => true | _ => false end.

(** A chain is settled by publishing it as used or by returning it. *)
Definition settles (e : event) : bool :=
  match e with EvRelchain _ _ _ | EvRetchain _ => true | _ => false end.

(** How often the chain pulled last is settled in what follows, up to the
    next pull. *)
Fixpoint settled_after (evs : list event) : nat :=
  match evs with
  | [] => 0
  | e :: rest =>
      if pulls e then 0%nat
      else ((if settles e then 1 else 0) + settled_after rest)%nat
  end.

(** Every chain pulled in [evs] is settled exactly once. *)
Fixpoint chains_settled_once (evs : list event) : Prop :=
  match evs with
  | [] => True
  | e :: rest =>
      (if pulls e then settled_after rest = 1%nat else True) /\
      chains_settled_once rest
  end.

(** ** Sample states *)

(** A device after attach (backend 1 open, link up) whose guest has notified
    the receive queue. *)
Definition ready_softc : pci_vtnet_softc :=
  mk_softc (Some 1) 1 0 0 sizeof_virtio_net_rxhdr 1 0
           (mk_config [2; 0; 0; 0; 0; 1] 1 0).

(** A one-descriptor receive chain of 2048 bytes with head index [i]. *)
Definition rx_chain (i : Z) : chain :=
  mk_chain i [mk_iovec (guest_mem (4096 * i)) 2048].

(** Three receive buffers posted, nothing pulled yet; [rs] is what the
    backend answers. *)
Definition posted_world (rs : list Z) : world :=
  mk_world (mk_vq [rx_chain 0; rx_chain 1; rx_chain 2] 0) (mk_vq [] 0) rs [] [].

(** Peel one event off a trace split as [pre ++ e :: post]. *)
Ltac peel H pre :=
  destruct pre as [|? pre]; cbn in H; [try discriminate H | injection H as _ H].

(** What [pci_vtnet_reset] leaves of a softc. *)
Definition reset_softc (sc : pci_vtnet_softc) : pci_vtnet_softc :=
  mk_softc (vsc_be sc) 0 0 (vsc_features sc) sizeof_virtio_net_rxhdr 1 0
           (vsc_config sc).

(** The fields of the softc that steer the datapath. *)
Definition datapath_state (sc : pci_vtnet_softc) : Z * Z * Z * Z :=
  (vsc_rx_ready sc, rx_merge sc, rx_vhdrlen sc, resetting sc).

(** Sample collaborators of the attach routine: a MAC parser that accepts
    everything, a backend that opens as handle 1 without capabilities, and
    interrupt setup that succeeds. *)
Definition sample_init : pci_devinst -> option string -> M (Z * pci_vtnet_softc) :=
  pci_vtnet_init (fun _ => (0, [2; 0; 0; 0; 0; 1])) (fun _ => [2; 0; 0; 0; 0; 2])
                 (fun _ => Some 1) (fun _ => 0) (fun _ _ => 0) 1 0.

Definition empty_world : world := mk_world (mk_vq [] 0) (mk_vq [] 0) [] [] [].

(** A device in legacy mode, mid-transmit, one receive chain pulled; the
    transmit thread is found idle at the third poll. *)
Definition busy_softc : pci_vtnet_softc :=
  mk_softc (Some 1) 1 0 0 10 0 1 (mk_config [2; 0; 0; 0; 0; 1] 1 0).
Definition busy_world : world :=
  mk_world (mk_vq [rx_chain 0] 1) (mk_vq [] 0) [] [1; 1; 0] [].

(** ** Vocabulary of the further properties *)

(** A chain the handlers accept: 1 to [VTNET_MAXSEGS] descriptors. *)
Definition chain_ok (c : chain) : Prop :=
  (1 <= length (ch_descs c) <= 256)%nat.

(** The chains published on queue [q] in a trace, with their lengths, in
    order. *)
Fixpoint completions (q : vq_id) (evs : list event) : list (Z * Z) :=
  match evs with
  | [] => []
  | EvRelchain q' idx len :: rest =>
      match q, q' with
      | VTNET_RXQ, VTNET_RXQ | VTNET_TXQ, VTNET_TXQ => (idx, len) :: completions q rest
      | _, _ => completions q rest
      end
  | _ :: rest => completions q rest
  end.

(** The number of pulls in a trace. *)
Fixpoint pull_count (evs : list event) : nat :=
  match evs with
  | [] => 0
  | e :: rest => ((if pulls e then 1 else 0) + pull_count rest)%nat
  end.

(** The backend sends in a trace: what was sent and the total length
    given. *)
Fixpoint sends (evs : list event) : list (list iovec * Z) :=
  match evs with
  | [] => []
  | EvSend _ iov _ len _ :: rest => (iov, len) :: sends rest
  | _ :: rest => sends rest
  end.

(** The answers of the backend up to the first that is not a length. *)
Fixpoint positive_prefix (rs : list Z) : list Z :=
  match rs with
  | [] => []
  | r :: rest => if 0 <? r then r :: positive_prefix rest else []
  end.

(** The calls the do-while loop of [pci_vtnet_rx] makes when the chains
    [cs] are pending and the backend answers [rs]. *)
Fixpoint rx_loop_events (be : option Z) (cs : list chain) (rs : list Z) : list event :=
  match cs with
  | [] => []
  | c :: cs' =>
      let n := Z.of_nat (length (ch_descs c)) in
      let r := default 0 (head rs) in
      EvGetchain VTNET_RXQ VTNET_MAXSEGS n (ch_idx c) ::
      if (1 <=? n) && (n <=? VTNET_MAXSEGS) then
        EvRecv be (take (Z.to_nat VTNET_MAXSEGS) (ch_descs c)) n r ::
        if r <? 0 then []
        else if r =? 0 then [EvRetchain VTNET_RXQ; EvEndchains VTNET_RXQ 0]
        else
          EvRelchain VTNET_RXQ (ch_idx c) r ::
          match cs' with
          | [] => [EvHasDescs VTNET_RXQ false]
          | _ :: _ => EvHasDescs VTNET_RXQ true :: rx_loop_events be cs' (tail rs)
          end
      else []
  end.

(** By how much that loop advances [vq_last_avail]. *)
Fixpoint rx_loop_consumed (cs : list chain) (rs : list Z) : nat :=
  match cs with
  | [] => 0
  | c :: cs' =>
      let n := Z.of_nat (length (ch_descs c)) in
      let r := default 0 (head rs) in
      if (1 <=? n) && (n <=? VTNET_MAXSEGS) then
        if r <? 0 then 1%nat
        else if r =? 0 then 0%nat
        else S (rx_loop_consumed cs' (tail rs))
      else 1%nat
  end.

(** The total length [pci_vtnet_proctx] computes for a chain. *)
Definition chain_total (c : chain) : Z :=
  proctx_len (ch_descs c) (Z.of_nat (length (ch_descs c))).

(** The calls the do-while loop of [pci_vtnet_tx_thread] makes when the
    chains [cs] are pending. *)
Fixpoint tx_drain_events (be : option Z) (cs : list chain) : list event :=
  match cs with
  | [] => []
  | c :: cs' =>
      let n := Z.of_nat (length (ch_descs c)) in
      EvGetchain VTNET_TXQ VTNET_MAXSEGS n (ch_idx c) ::
      if (1 <=? n) && (n <=? VTNET_MAXSEGS) then
        let iov := take (Z.to_nat VTNET_MAXSEGS) (ch_descs c) in
        let len := proctx_len iov n in
        EvSend be iov n len 0 ::
        EvRelchain VTNET_TXQ (ch_idx c) len ::
        match cs' with
        | [] => [EvHasDescs VTNET_TXQ false]
        | _ :: _ => EvHasDescs VTNET_TXQ true :: tx_drain_events be cs'
        end
      else []
  end.

(** The values of a byte. *)
Definition is_byte (b : Z) : Prop := 0 <= b < 256.

(** The sum of the lengths of a vector. *)
Definition iov_total (iov : list iovec) : Z :=
  foldr (fun v acc => iov_len v + acc) 0 iov.

(** A [uint16_t]. *)
Definition is_u16 (x : Z) : Prop := 0 <= x < 2 ^ 16.

(** A 1514-byte frame in three descriptors with head index 5, and a world
    where it is the one chain posted on the transmit queue. *)
Definition tx_frame : chain :=
  mk_chain 5 [mk_iovec (guest_mem 0) 12;
              mk_iovec (guest_mem 4096) 1000;
              mk_iovec (guest_mem 8192) 502].
Definition tx_world : world :=
  mk_world (mk_vq [] 0) (mk_vq [tx_frame] 0) [] [] [].

(** The error code of the MAC parser in [pci_vtnet_init]: 0 when the
    options give no MAC. *)
Definition init_mac_error (net_parsemac : string -> Z * list Z)
           (opts : option string) : Z :=
  match opts with
  | Some o =>
      match snd (strsep o ","%char) with
      | Some m => fst (net_parsemac m)
      | None => 0
      end
  | None => 0
  end.

(** The MAC [pci_vtnet_init] settles on: the one of the options if there
    is one, a generated one otherwise. *)
Definition init_mac (net_parsemac : string -> Z * list Z)
           (net_genmac : pci_devinst -> list Z)
           (pi : pci_devinst) (opts : option string) : list Z :=
  match opts with
  | Some o =>
      match snd (strsep o ","%char) with
      | Some m => snd (net_parsemac m)
      | None => net_genmac pi
      end
  | None => net_genmac pi
  end.

(** The backend [pci_vtnet_init] opens: the one named by the options, if
    any and if it opens. *)
Definition init_backend (netbe_init : string -> option Z)
           (opts : option string) : option Z :=
  match opts with
  | Some o => netbe_init (fst (strsep o ","%char))
  | None => None
  end.

(** What [pci_vtnet_init] leaves in the softc once the options are read:
    the backend, the MAC and the link status, everything else as [calloc]
    left it. *)
Definition init_linked_softc (be : option Z) (opts : option string)
           (m : list Z) : pci_vtnet_softc :=
  mk_softc be 0 0 0 0 0 0
           (mk_config m (match opts, be with
                         | None, _ => 1
                         | Some _, Some _ => 1
                         | Some _, None => 0
                         end) 0).

(** * Properties *)

(** ** Traces of the receive loop *)

Lemma vq_pending_advance v c rest :
  vq_pending v = c :: rest ->
  vq_pending (mk_vq (vq_ring v) (S (vq_last_avail v))) = rest.
Proof.
  unfold vq_pending. cbn [vq_ring vq_last_avail]. intros H.
  replace (S (vq_last_avail v)) with (vq_last_avail v + 1)%nat by lia.
  rewrite <- drop_drop, H. reflexivity.
Qed.

Lemma in_segs_test n :
  (1 <=? n) && (n <=? VTNET_MAXSEGS) = true <-> in_segs n.
Proof. unfold in_segs. rewrite andb_true_iff, !Z.leb_le. tauto. Qed.

Lemma in_segs_test_false n :
  (1 <=? n) && (n <=? VTNET_MAXSEGS) = false <-> ~ in_segs n.
Proof. rewrite <- in_segs_test. destruct (_ && _); intuition congruence. Qed.

(** One round of the loop, spelled out. *)
Lemma pci_vtnet_rx_loop_round fuel sc w c rest :
  vq_pending (w_rxq w) = c :: rest ->
  pci_vtnet_rx_loop (S fuel) sc w =
    let n := Z.of_nat (length (ch_descs c)) in
    let iov := take (Z.to_nat VTNET_MAXSEGS) (ch_descs c) in
    let len := default 0 (head (w_recv w)) in
    let w1 := emit (EvGetchain VTNET_RXQ VTNET_MAXSEGS n (ch_idx c))
                (set_vq VTNET_RXQ
                   (mk_vq (vq_ring (w_rxq w)) (S (vq_last_avail (w_rxq w)))) w) in
    let w2 := emit (EvRecv (vsc_be sc) iov n len) (set_w_recv (tail (w_recv w)) w1) in
    if (1 <=? n) && (n <=? VTNET_MAXSEGS) then
      if len <? 0 then Ok LoopBreak w2
      else if len =? 0 then
        Ok LoopReturn
           (emit (EvEndchains VTNET_RXQ 0)
              (emit (EvRetchain VTNET_RXQ)
                 (set_vq VTNET_RXQ
                    (mk_vq (vq_ring (w_rxq w)) (vq_last_avail (w_rxq w))) w2)))
      else
        let w3 := emit (EvRelchain VTNET_RXQ (ch_idx c) len) w2 in
        match rest with
        | [] => Ok LoopEnd (emit (EvHasDescs VTNET_RXQ false) w3)
        | _ :: _ => pci_vtnet_rx_loop fuel sc (emit (EvHasDescs VTNET_RXQ true) w3)
        end
    else Fault AssertionFailed w1.
Proof.
  intros Hp. pose proof (vq_pending_advance _ _ _ Hp) as Hadv.
  cbn [pci_vtnet_rx_loop]. unfold bind, vq_getchain, netbe_recv, assert, ret, raise.
  cbn [get_vq]. rewrite Hp. cbn [gc_n gc_idx gc_iov]. cbv zeta.
  destruct ((1 <=? _) && _); [|reflexivity].
  destruct (_ <? 0); [reflexivity|].
  destruct (_ =? 0); [reflexivity|].
  unfold vq_relchain, vq_has_descs, log.
  cbn [get_vq emit set_vq set_w_recv w_rxq w_txq w_recv w_tx_in_progress w_trace].
  rewrite Hadv. destruct rest; reflexivity.
Qed.

(** One run of the loop, started with a chain pending and enough fuel,
    follows [rx_loop_run]. *)
Lemma pci_vtnet_rx_loop_run fuel : forall sc w,
  (length (vq_pending (w_rxq w)) <= fuel)%nat ->
  vq_pending (w_rxq w) <> [] ->
  exists evs,
    w_trace (result_world (pci_vtnet_rx_loop fuel sc w)) = w_trace w ++ evs /\
    rx_loop_run (vsc_be sc) evs (outcome (pci_vtnet_rx_loop fuel sc w)).
Proof.
  induction fuel as [|fuel IH]; intros sc w Hfuel Hne.
  - destruct (vq_pending (w_rxq w)); [congruence | simpl in Hfuel; lia].
  - destruct (vq_pending (w_rxq w)) as [|c rest] eqn:Hp; [congruence|].
    pose proof (vq_pending_advance _ _ _ Hp) as Hadv.
    rewrite (pci_vtnet_rx_loop_round _ _ _ _ _ Hp). cbv zeta.
    set (n := Z.of_nat (length (ch_descs c))).
    set (len := default 0 (head (w_recv w))).
    destruct ((1 <=? n) && (n <=? VTNET_MAXSEGS)) eqn:Hn.
    2:{ apply in_segs_test_false in Hn. cbn.
        eexists. split; [reflexivity|]. by apply run_assert. }
    apply in_segs_test in Hn.
    destruct (len <? 0) eqn:Hneg.
    { cbn. rewrite <- !app_assoc. eexists. split; [reflexivity|].
      apply run_break; [done | lia]. }
    destruct (len =? 0) eqn:Hz.
    { apply Z.eqb_eq in Hz. rewrite Hz.
      cbn. rewrite <- !app_assoc. eexists. split; [reflexivity|].
      by apply run_return. }
    assert (0 < len) by lia.
    destruct rest as [|c' rest'].
    + cbn. rewrite <- !app_assoc. eexists. split; [reflexivity|].
      by apply run_end.
    + match goal with |- context [pci_vtnet_rx_loop fuel sc ?w'] =>
        destruct (IH sc w') as (evs & Htr & Hrun) end.
      { cbn [get_vq emit set_vq set_w_recv w_rxq]. rewrite Hadv. simpl in *. lia. }
      { cbn [get_vq emit set_vq set_w_recv w_rxq]. rewrite Hadv. done. }
      rewrite Htr. cbn. rewrite <- !app_assoc. eexists. split; [reflexivity|].
      by apply run_more.
Qed.

Lemma rx_gate_closed sc :
  (vsc_rx_ready sc =? 0) || negb (resetting sc =? 0) = true <->
  vsc_rx_ready sc = 0 \/ resetting sc <> 0.
Proof.
  rewrite orb_true_iff, negb_true_iff, Z.eqb_eq, Z.eqb_neq. tauto.
Qed.

Lemma rx_gate_open sc :
  (vsc_rx_ready sc =? 0) || negb (resetting sc =? 0) = false <->
  vsc_rx_ready sc <> 0 /\ resetting sc = 0.
Proof.
  rewrite orb_false_iff, negb_false_iff, Z.eqb_eq, Z.eqb_neq. tauto.
Qed.

(** Every run of the receive handler follows [rx_run]; in particular the
    handler always returns or fails an assertion. *)
Lemma pci_vtnet_rx_run sc w :
  exists evs,
    w_trace (result_world (pci_vtnet_rx sc w)) = w_trace w ++ evs /\
    rx_run sc evs (outcome (pci_vtnet_rx sc w)).
Proof.
  unfold pci_vtnet_rx.
  destruct ((vsc_rx_ready sc =? 0) || negb (resetting sc =? 0)) eqn:Hgate.
  - apply rx_gate_closed in Hgate. cbn.
    eexists. split; [reflexivity|]. by apply rx_discarded.
  - apply rx_gate_open in Hgate. destruct Hgate as [Hready Hreset].
    destruct (vq_pending (w_rxq w)) as [|c rest] eqn:Hp.
    + unfold bind, vq_has_descs. cbn [get_vq]. rewrite Hp. cbn.
      rewrite <- !app_assoc. eexists. split; [reflexivity|].
      by apply rx_no_buffers.
    + unfold bind, vq_has_descs. cbn [get_vq]. rewrite Hp.
      cbn [negb emit w_rxq]. rewrite Hp.
      match goal with |- context [pci_vtnet_rx_loop ?f sc ?w'] =>
        destruct (pci_vtnet_rx_loop_run f sc w') as (evs & Htr & Hrun) end.
      { cbn [emit w_rxq]. by rewrite Hp. }
      { cbn [emit w_rxq]. by rewrite Hp. }
      destruct (pci_vtnet_rx_loop _ sc _) as [e w'|f w']; cbn in Htr, Hrun.
      * exists (EvHasDescs VTNET_RXQ true :: evs ++ rx_epilogue (inl e)). split.
        { destruct e; cbn; rewrite Htr, <- ?app_assoc; cbn;
            rewrite ?app_nil_r; reflexivity. }
        replace (outcome _) with (rx_outcome (inl e)) by (by destruct e).
        by apply rx_filled.
      * exists (EvHasDescs VTNET_RXQ true :: evs ++ rx_epilogue (inr f)). split.
        { cbn. rewrite Htr, <- ?app_assoc. cbn. rewrite ?app_nil_r. reflexivity. }
        by apply (rx_filled sc evs (inr f)).
Qed.

(** The only way the loop fails is an assertion. *)
Lemma rx_loop_run_fault be evs f :
  rx_loop_run be evs (inr f) -> f = AssertionFailed.
Proof.
  intros H. remember (inr f) as k eqn:Hk.
  induction H; try discriminate; [congruence | auto].
Qed.

(** The receive handler never waits: the fuel given to its loop suffices. *)
Lemma pci_vtnet_rx_not_blocked sc w w' :
  pci_vtnet_rx sc w <> Fault Blocked w'.
Proof.
  destruct (pci_vtnet_rx_run sc w) as (evs & _ & Hrun). intros Heq.
  rewrite Heq in Hrun. cbn in Hrun.
  inversion Hrun as [| |evs' k Hready Hreset Hloop Hevs Hk].
  destruct k as [e|f]; [discriminate|]. cbn in Hk. injection Hk as ->.
  by apply rx_loop_run_fault in Hloop.
Qed.

(** ** Settling of pulled chains *)





(** A run of the loop that ends by [break] leaves the chain pulled last
    unsettled, whatever follows the loop. *)
Lemma rx_loop_run_break_unsettled be evs q f :
  rx_loop_run be evs (inl LoopBreak) ->
  ~ chains_settled_once (evs ++ [EvEndchains q f]).
Proof.
  intros H. remember (inl LoopBreak) as k eqn:Hk.
  induction H; try discriminate.
  - cbn. intros [? _]. discriminate.
  - cbn. intros (_ & _ & _ & _ & Hrest). by apply IHrx_loop_run.
Qed.

(** The loop is left by [break] exactly when the backend reports a hard
    error, and that call is then the last one of the loop. *)
Lemma rx_loop_run_hard_error be evs k be' iov n r :
  rx_loop_run be evs k -> In (EvRecv be' iov n r) evs -> r < 0 ->
  k = inl LoopBreak /\ exists pre, evs = pre ++ [EvRecv be' iov n r].
Proof.
  induction 1 as [| | | |n0 idx0 iov0 len0 evs k Hn Hlen Hrun IH]; cbn; intros Hin Hr.
  - intuition discriminate.
  - destruct Hin as [|[Heq|[]]]; [discriminate|]. rewrite Heq.
    split; [reflexivity|]. by eexists [_].
  - destruct Hin as [|[Heq|[|[|[]]]]]; try discriminate.
    injection Heq as _ _ _ <-. lia.
  - destruct Hin as [|[Heq|[|[|[]]]]]; try discriminate.
    injection Heq as _ _ _ <-. lia.
  - destruct Hin as [|[Heq|[|[|Hin]]]]; try discriminate.
    { injection Heq as _ _ _ <-. lia. }
    destruct (IH Hin Hr) as [-> [pre ->]].
    split; [reflexivity|]. by eexists (_ :: _ :: _ :: _ :: pre).
Qed.


(** ** Receive: discard before ready *)

(** C5.  While [vsc_rx_ready] is 0 or [resetting] is set, the receive
    handler returns after exactly one call: a backend receive into the
    discard buffer, which has 65536+64 bytes.  It calls nothing of the queue
    interface (so it publishes nothing), leaves both queues as they were and
    consumes one pending answer of the backend. *)
Theorem rx_discard_before_ready sc w :
  vsc_rx_ready sc = 0 \/ resetting sc <> 0 ->
  exists w',
    pci_vtnet_rx sc w = Ok tt w' /\
    w_trace w' = w_trace w ++
      [EvRecv (vsc_be sc) [mk_iovec dummybuf sizeof_dummybuf] 1
              (default 0 (head (w_recv w)))] /\
    65536 + 64 <= sizeof_dummybuf /\
    w_rxq w' = w_rxq w /\ w_txq w' = w_txq w /\
    w_recv w' = tail (w_recv w).
Proof.
  intros Hgate. apply rx_gate_closed in Hgate.
  unfold pci_vtnet_rx. rewrite Hgate.
  eexists. split; [reflexivity|]. cbn. repeat split. unfold sizeof_dummybuf. lia.
Qed.

Lemma rx_discard_before_ready_witness :
  (vsc_rx_ready softc_calloc = 0 \/ resetting softc_calloc <> 0) /\
  exists w',
    pci_vtnet_rx softc_calloc (posted_world [1500]) = Ok tt w' /\
    w_trace w' = [EvRecv None [mk_iovec dummybuf 65600] 1 1500] /\
    65536 + 64 <= sizeof_dummybuf /\
    w_rxq w' = w_rxq (posted_world [1500]) /\
    w_txq w' = w_txq (posted_world [1500]) /\
    w_recv w' = [].
Proof.
  split; [left; reflexivity|].
  apply (rx_discard_before_ready softc_calloc (posted_world [1500])).
  left. reflexivity.
Defined.

(** ** Receive: pulled chains *)


(** When the backend reports a hard error on a chain pulled by the loop, the
    handler returns with that chain neither published nor returned. *)
Lemma rx_hard_error_unsettled sc w evs be iov n r :
  vsc_rx_ready sc <> 0 -> resetting sc = 0 ->
  w_trace (result_world (pci_vtnet_rx sc w)) = w_trace w ++ evs ->
  In (EvRecv be iov n r) evs -> r < 0 -> iov <> discard_iov ->
  (exists w', pci_vtnet_rx sc w = Ok tt w') /\ ~ chains_settled_once evs.
Proof.
  intros Hready Hreset Htr Hin Hr Hiov.
  destruct (pci_vtnet_rx_run sc w) as (evs0 & Htr0 & Hrun).
  rewrite Htr in Htr0. apply app_inv_head in Htr0. subst evs0.
  inversion Hrun as [r0 Hgate Hevs|r0 _ _ Hevs|evs' k _ _ Hloop Hevs Hk].
  - tauto.
  - subst evs. cbn in Hin. destruct Hin as [|[Heq|[|[]]]]; try discriminate.
    injection Heq as _ <- _ _. congruence.
  - subst evs. cbn in Hin. destruct Hin as [|Hin]; [discriminate|].
    apply in_app_or in Hin. destruct Hin as [Hin|Hin].
    + destruct (rx_loop_run_hard_error _ _ _ _ _ _ _ Hloop Hin Hr) as [-> _].
      split.
      * destruct (pci_vtnet_rx sc w) as [[] w'|]; [by exists w'|discriminate].
      * cbn. intros [_ Hs]. by apply (rx_loop_run_break_unsettled _ _ _ _ Hloop) in Hs.
    + destruct k as [[]|f]; cbn in Hin; intuition discriminate.
Qed.

(** C1, at a failing input.  The device is ready, three buffers are posted
    and the backend answers -1 to the first receive: the handler pulls
    chain 0, calls the backend, flushes and returns.  Chain 0 is neither
    published ([vq_relchain]) nor returned ([vq_retchain]); the queue still
    counts it as pulled. *)
Theorem rx_hard_error_leaks_chain :
  exists w',
    pci_vtnet_rx ready_softc (posted_world [-1]) = Ok tt w' /\
    w_trace w' =
      [EvHasDescs VTNET_RXQ true;
       EvGetchain VTNET_RXQ 256 1 0;
       EvRecv (Some 1) [mk_iovec (guest_mem 0) 2048] 1 (-1);
       EvEndchains VTNET_RXQ 1] /\
    settled_after (drop 2 (w_trace w')) = 0%nat /\
    ~ chains_settled_once (w_trace w') /\
    vq_last_avail (w_rxq w') = 1%nat.
Proof.
  eexists. split; [reflexivity|]. cbn. repeat split.
  intros (_ & H & _). discriminate.
Qed.

(** ** Receive: the flush after a hard error *)

(** C7, as amended.  When the device is ready and the backend answers a
    receive of the handler with a negative value, the handler makes one more
    call and returns: [vq_endchains] on the receive queue with
    [used_all_avail] set, after every chain published in the same call. *)
Theorem rx_hard_error_flushes sc w w' evs be iov n r :
  vsc_rx_ready sc <> 0 -> resetting sc = 0 ->
  pci_vtnet_rx sc w = Ok tt w' ->
  w_trace w' = w_trace w ++ evs ->
  In (EvRecv be iov n r) evs -> r < 0 ->
  exists pre, evs = pre ++ [EvRecv be iov n r; EvEndchains VTNET_RXQ 1].
Proof.
  intros Hready Hreset Hrx Htr Hin Hr.
  destruct (pci_vtnet_rx_run sc w) as (evs0 & Htr0 & Hrun).
  rewrite Hrx in Htr0, Hrun. cbn in Htr0, Hrun.
  rewrite Htr in Htr0. apply app_inv_head in Htr0. subst evs0.
  inversion Hrun as [r0 Hgate Hevs|r0 _ _ Hevs|evs' k _ _ Hloop Hevs Hk].
  - tauto.
  - subst evs. cbn in Hin. destruct Hin as [|[Heq|[|[]]]]; try discriminate.
    rewrite Heq. by exists [EvHasDescs VTNET_RXQ false].
  - subst evs. cbn in Hin. destruct Hin as [|Hin]; [discriminate|].
    apply in_app_or in Hin. destruct Hin as [Hin|Hin].
    + destruct (rx_loop_run_hard_error _ _ _ _ _ _ _ Hloop Hin Hr) as [-> [pre ->]].
      exists (EvHasDescs VTNET_RXQ true :: pre). cbn. by rewrite <- app_assoc.
    + destruct k as [[]|f]; cbn in Hin; intuition discriminate.
Qed.

Lemma rx_hard_error_flushes_witness :
  let hard_error := EvRecv (Some 1) [mk_iovec (guest_mem 4096) 2048] 1 (-1) in
  vsc_rx_ready ready_softc <> 0 /\ resetting ready_softc = 0 /\
  exists w' evs,
    pci_vtnet_rx ready_softc (posted_world [100; -1]) = Ok tt w' /\
    w_trace w' = w_trace (posted_world [100; -1]) ++ evs /\
    In hard_error evs /\
    exists pre, evs = pre ++ [hard_error; EvEndchains VTNET_RXQ 1].
Proof.
  cbv zeta. split; [discriminate|]. split; [reflexivity|].
  eexists _, _. split; [lazy; reflexivity|]. split; [reflexivity|].
  split; [cbn; tauto|].
  eapply (rx_hard_error_flushes ready_softc (posted_world [100; -1])).
  - discriminate.
  - reflexivity.
  - lazy. reflexivity.
  - reflexivity.
  - cbn. tauto.
  - lia.
Defined.

(** C7, as stated, fails.  The backend answers 100 and then -1: chain 0 is
    published in this call, the second receive is the hard error, and the
    last call of the handler is the flush with [used_all_avail] set. *)
Lemma rx_hard_error_forced_flush :
  exists w',
    pci_vtnet_rx ready_softc (posted_world [100; -1]) = Ok tt w' /\
    In (EvRelchain VTNET_RXQ 0 100) (w_trace w') /\
    In (EvRecv (Some 1) [mk_iovec (guest_mem 4096) 2048] 1 (-1)) (w_trace w') /\
    last (w_trace w') = Some (EvEndchains VTNET_RXQ 1).
Proof.
  eexists. split; [reflexivity|]. cbn. tauto.
Qed.

(** ** Segment bound of pulled chains *)

(** Every pull of the loop asks for [VTNET_MAXSEGS] segments; a count in
    range is followed by the backend receive, a count out of range by
    nothing: the loop has failed its assertion. *)
Lemma rx_loop_run_getchain be evs k :
  rx_loop_run be evs k ->
  forall pre q n_iov n idx post,
    evs = pre ++ EvGetchain q n_iov n idx :: post ->
    q = VTNET_RXQ /\ n_iov = VTNET_MAXSEGS /\
    (in_segs n -> exists iov r post', post = EvRecv be iov n r :: post') /\
    (~ in_segs n -> post = [] /\ k = inr AssertionFailed).
Proof.
  induction 1 as [| | | |n0 idx0 iov0 len0 evs k Hn Hlen Hrun IH];
    intros pre q n_iov m i post Heq.
  - peel Heq pre; [|by destruct pre]. simplify_eq. tauto.
  - peel Heq pre; [simplify_eq; split_and!; eauto; tauto|].
    peel Heq pre. by destruct pre.
  - peel Heq pre; [simplify_eq; split_and!; eauto; tauto|].
    do 3 peel Heq pre. by destruct pre.
  - peel Heq pre; [simplify_eq; split_and!; eauto; tauto|].
    do 3 peel Heq pre. by destruct pre.
  - peel Heq pre; [simplify_eq; split_and!; eauto; tauto|].
    do 3 peel Heq pre. exact (IH _ _ _ _ _ _ Heq).
Qed.

Lemma rx_epilogue_no_pull k pre q n_iov n idx post :
  rx_epilogue k <> pre ++ EvGetchain q n_iov n idx :: post.
Proof.
  intros Heq. destruct k as [[]|f]; cbn in Heq;
    try (by destruct pre); peel Heq pre; by destruct pre.
Qed.

(** One call of [pci_vtnet_proctx], spelled out. *)
Lemma pci_vtnet_proctx_round sc w :
  let v := w_txq w in
  let gc := match vq_pending v with
            | [] => mk_getchain 0 0 []
            | c :: _ => mk_getchain (Z.of_nat (length (ch_descs c))) (ch_idx c)
                                    (take (Z.to_nat VTNET_MAXSEGS) (ch_descs c))
            end in
  let n := gc_n gc in
  let len := proctx_len (gc_iov gc) n in
  exists w1,
    w_trace w1 = w_trace w ++ [EvGetchain VTNET_TXQ VTNET_MAXSEGS n (gc_idx gc)] /\
    pci_vtnet_proctx sc w =
      if (1 <=? n) && (n <=? VTNET_MAXSEGS) then
        Ok tt (emit (EvRelchain VTNET_TXQ (gc_idx gc) len)
                 (emit (EvSend (vsc_be sc) (gc_iov gc) n len 0) w1))
      else Fault AssertionFailed w1.
Proof.
  cbv zeta. unfold pci_vtnet_proctx, bind, vq_getchain. cbn [get_vq].
  destruct (vq_pending (w_txq w)) as [|c rest];
    cbn [gc_n gc_idx gc_iov]; (eexists; split; [|destruct (_ && _); reflexivity]);
    reflexivity.
Qed.

(** C9.  Receive path: every chain the handler pulls is pulled from the
    receive queue with a limit of 256 segments; when the count returned is
    within 1..256 the next call is the backend receive with that count,
    otherwise nothing follows and the handler has failed its assertion.
    Transmit path: [pci_vtnet_proctx] pulls one chain from the transmit
    queue with a limit of 256 segments; with a count within 1..256 it sends
    the chain and publishes it, otherwise it fails its assertion with
    nothing sent and nothing published. *)
Theorem getchain_segment_bound sc w :
  (exists evs,
     w_trace (result_world (pci_vtnet_rx sc w)) = w_trace w ++ evs /\
     forall pre q n_iov n idx post,
       evs = pre ++ EvGetchain q n_iov n idx :: post ->
       q = VTNET_RXQ /\ n_iov = 256 /\
       (1 <= n <= 256 ->
        exists iov r post', post = EvRecv (vsc_be sc) iov n r :: post') /\
       (~ 1 <= n <= 256 ->
        post = [] /\ outcome (pci_vtnet_rx sc w) = inr AssertionFailed)) /\
  (exists n idx iov len,
     (1 <= n <= 256 /\
      outcome (pci_vtnet_proctx sc w) = inl tt /\
      w_trace (result_world (pci_vtnet_proctx sc w)) =
        w_trace w ++ [EvGetchain VTNET_TXQ 256 n idx;
                      EvSend (vsc_be sc) iov n len 0;
                      EvRelchain VTNET_TXQ idx len]) \/
     (~ 1 <= n <= 256 /\
      outcome (pci_vtnet_proctx sc w) = inr AssertionFailed /\
      w_trace (result_world (pci_vtnet_proctx sc w)) =
        w_trace w ++ [EvGetchain VTNET_TXQ 256 n idx])).
Proof.
  split.
  - destruct (pci_vtnet_rx_run sc w) as (evs & Htr & Hrun).
    exists evs. split; [exact Htr|].
    intros pre q n_iov n idx post Heq.
    inversion Hrun as [r Hgate Hevs|r Hready Hreset Hevs|evs' k Hready Hreset Hloop Hevs Hk].
    + rewrite <- Hevs in Heq. peel Heq pre. by destruct pre.
    + rewrite <- Hevs in Heq. do 3 peel Heq pre. by destruct pre.
    + rewrite <- Hevs in Heq. peel Heq pre.
      apply app_eq_app in Heq. destruct Heq as [l [[Hl Hr]|[Hl Hr]]].
      * destruct l as [|g l]; cbn in Hr.
        { symmetry in Hr. by apply (rx_epilogue_no_pull k []) in Hr. }
        injection Hr as <- ->.
        destruct (rx_loop_run_getchain _ _ _ Hloop _ _ _ _ _ _ Hl)
          as (-> & -> & Hin & Hout).
        split_and!; [done|done|..].
        { intros Hn. destruct (Hin Hn) as (iov & r & post' & ->). cbn. eauto. }
        { intros Hn. destruct (Hout Hn) as (-> & ->). done. }
      * by apply rx_epilogue_no_pull in Hr.
  - destruct (pci_vtnet_proctx_round sc w) as (w1 & Htr & Heq). cbv zeta in *.
    rewrite Heq.
    eexists _, _, _, _.
    destruct ((1 <=? _) && _) eqn:Hn.
    + left. apply in_segs_test in Hn. split; [exact Hn|]. split; [reflexivity|].
      cbn. rewrite Htr, <- !app_assoc. reflexivity.
    + right. apply in_segs_test_false in Hn. split; [exact Hn|].
      split; [reflexivity|]. exact Htr.
Qed.

(** A chain without descriptors, or one of 257, fails the assertion of
    either path. *)
Example rx_zero_length_chain_asserts :
  outcome (pci_vtnet_rx ready_softc
             (mk_world (mk_vq [mk_chain 7 []] 0) (mk_vq [] 0) [1500] [] []))
  = inr AssertionFailed.
Proof. reflexivity. Qed.

Example proctx_long_chain_asserts :
  outcome (pci_vtnet_proctx ready_softc
             (mk_world (mk_vq [] 0)
                (mk_vq [mk_chain 3 (replicate 257 (mk_iovec (guest_mem 0) 64))] 0)
                [] [] []))
  = inr AssertionFailed.
Proof. vm_compute. reflexivity. Qed.

(** ** Reset *)

(** The wait for the transmit thread ends exactly when a poll finds
    [tx_in_progress] clear; it changes nothing else of the softc, and only
    sleeps. *)
Lemma pci_vtnet_txwait_poll_cases polls : forall sc w,
  (In 0 polls /\
   exists w' k,
     pci_vtnet_txwait_poll polls sc w = Ok (set_tx_in_progress 0 sc) w' /\
     w_trace w' = w_trace w ++ replicate k (EvUsleep 10000) /\
     w_rxq w' = w_rxq w /\ w_txq w' = w_txq w /\ w_recv w' = w_recv w) \/
  (~ In 0 polls /\
   exists w', pci_vtnet_txwait_poll polls sc w = Fault Blocked w').
Proof.
  induction polls as [|v rest IH]; intros sc w.
  - right. split; [by intros []|]. by eexists.
  - cbn [pci_vtnet_txwait_poll]. destruct (v =? 0) eqn:Hv; cbn [negb].
    + apply Z.eqb_eq in Hv. subst v. left. split; [by left|].
      exists (set_w_tx_in_progress rest w), 0%nat. cbn. by rewrite app_nil_r.
    + apply Z.eqb_neq in Hv. unfold bind, usleep, log.
      destruct (IH (set_tx_in_progress v sc)
                   (emit (EvUsleep 10000) (set_w_tx_in_progress rest w)))
        as [(Hin & w' & k & Heq & Htr & Hrxq & Htxq & Hrecv)|(Hnin & w' & Heq)].
      * left. split; [by right|]. exists w', (S k). rewrite Heq.
        split; [reflexivity|]. rewrite Htr, Hrxq, Htxq, Hrecv. cbn.
        rewrite <- app_assoc. split_and!; reflexivity.
      * right. split; [|by exists w']. intros [Heq0|Hin]; [congruence|tauto].
Qed.

(** [pci_vtnet_reset] returns exactly when the wait for the transmit thread
    ends, and then with [reset_softc]. *)
Lemma pci_vtnet_reset_cases sc w :
  (In 0 (w_tx_in_progress w) /\
   exists w', pci_vtnet_reset sc w = Ok (reset_softc sc) w') \/
  (~ In 0 (w_tx_in_progress w) /\
   exists w', pci_vtnet_reset sc w = Fault Blocked w').
Proof.
  unfold pci_vtnet_reset, pci_vtnet_txwait, bind.
  destruct (pci_vtnet_txwait_poll_cases (w_tx_in_progress w) (set_resetting 1 sc) w)
    as [(Hin & w' & k & Heq & _)|(Hnin & w' & Heq)]; rewrite Heq.
  - left. split; [exact Hin|]. eexists. reflexivity.
  - right. split; [exact Hnin|]. exists w'. reflexivity.
Qed.

Section AttachProperties.

Variable net_parsemac : string -> Z * list Z.
Variable net_genmac : pci_devinst -> list Z.
Variable netbe_init : string -> option Z.
Variable netbe_get_cap : Z -> Z.
Variable vi_intr_init : Z -> Z -> Z.
Variable fbsdrun_virtio_msix : Z.
Variable VTNET_S_HOSTCAPS : Z.

Local Abbreviation init :=
  (pci_vtnet_init net_parsemac net_genmac netbe_init netbe_get_cap
                  vi_intr_init fbsdrun_virtio_msix VTNET_S_HOSTCAPS).
Local Abbreviation opts_block := (init_opts net_parsemac netbe_init netbe_get_cap).

(** The options block touches the MAC and the backend pointer only. *)
Lemma init_opts_keeps_datapath sc caps opts :
  let sc' := snd (fst (opts_block sc caps opts)) in
  datapath_state sc' = datapath_state sc /\
  tx_in_progress sc' = tx_in_progress sc /\
  status (vsc_config sc') = status (vsc_config sc).
Proof.
  unfold init_opts. destruct opts as [o|]; [|done].
  destruct (strsep o _) as [devname [m|]].
  - destruct (net_parsemac m) as [err bytes]. by destruct (err =? 0).
  - done.
Qed.

(** A successful attach leaves the datapath state at: not ready, merged
    buffers, long header, not resetting. *)
Lemma pci_vtnet_init_datapath pi opts w sc w' :
  init pi opts w = Ok (0, sc) w' ->
  datapath_state sc = (0, 1, sizeof_virtio_net_rxhdr, 0) /\
  tx_in_progress sc = 0.
Proof.
  unfold pci_vtnet_init.
  pose proof (init_opts_keeps_datapath softc_calloc VTNET_S_HOSTCAPS opts) as Hk.
  destruct (init_opts _ _ _ _ _ opts) as [[[err mp] sc1] caps].
  cbn in Hk. destruct Hk as (Hd & _ & _).
  destruct (err =? 0) eqn:Herr; cbn [negb].
  2:{ apply Z.eqb_neq in Herr. unfold ret. intros [= -> _ _]. done. }
  unfold bind, log, ret.
  destruct (vi_intr_init 1 fbsdrun_virtio_msix =? 0); cbn [negb]; [|discriminate].
  intros [= <- _]. injection Hd as Hr _ _ _.
  unfold datapath_state. cbn. destruct mp; cbn; by rewrite Hr.
Qed.

(** C2.  Whenever a poll finds the transmit thread idle, [pci_vtnet_reset]
    returns, and then [vsc_rx_ready] is 0, [rx_merge] is 1, [rx_vhdrlen]
    is the 12 bytes of the merged-buffer header and [resetting] is 0: the
    values these fields have after a successful [pci_vtnet_init]. *)
Theorem reset_restores_attach_state pi opts w0 sc0 w0' sc w :
  init pi opts w0 = Ok (0, sc0) w0' ->
  In 0 (w_tx_in_progress w) ->
  exists sc' w',
    pci_vtnet_reset sc w = Ok sc' w' /\
    vsc_rx_ready sc' = 0 /\ rx_merge sc' = 1 /\ rx_vhdrlen sc' = 12 /\
    resetting sc' = 0 /\
    datapath_state sc' = datapath_state sc0.
Proof.
  intros Hinit Hidle.
  destruct (pci_vtnet_init_datapath _ _ _ _ _ Hinit) as [Hd _].
  destruct (pci_vtnet_reset_cases sc w) as [(_ & w' & Heq)|(Hn & _)]; [|tauto].
  exists (reset_softc sc), w'. rewrite Hd. by split_and!.
Qed.

(** C6, as amended.  When an option string names a backend, its MAC part
    (if any) parses and opening the backend fails, the attach routine goes
    on: it links the device to the virtio layer, the status register
    reads 0 (link down), and with interrupt setup succeeding it maps the
    registers, starts the transmit thread and returns 0. *)
Theorem attach_open_failure_link_down pi o w :
  netbe_init (fst (strsep o ","%char)) = None ->
  (forall m, snd (strsep o ","%char) = Some m -> fst (net_parsemac m) = 0) ->
  exists rc sc w',
    init pi (Some o) w = Ok (rc, sc) w' /\
    vsc_be sc = None /\
    status (vsc_config sc) = 0 /\
    In (EvSoftcLinkup VTNET_S_HOSTCAPS) (w_trace w') /\
    (vi_intr_init 1 fbsdrun_virtio_msix = 0 ->
     rc = 0 /\
     w_trace w' = w_trace w ++
       [EvSoftcLinkup VTNET_S_HOSTCAPS; EvSetIoBar 0; EvTxThreadCreate]).
Proof.
  intros Hopen Hmac. unfold pci_vtnet_init, init_opts.
  destruct (strsep o ","%char) as [devname vtopts]. cbn [fst snd] in *.
  assert (Herr : match vtopts with
                 | Some m => fst (net_parsemac m) = 0
                 | None => True
                 end) by (destruct vtopts; auto).
  destruct vtopts as [m|]; [destruct (net_parsemac m) as [err bytes];
                            cbn [fst] in Herr; subst err|];
    cbn [Z.eqb negb]; rewrite Hopen; unfold bind, log, ret;
    (destruct (vi_intr_init 1 fbsdrun_virtio_msix =? 0) eqn:Hintr; cbn [negb];
     [|apply Z.eqb_neq in Hintr]);
    (eexists _, _, _; split; [reflexivity|]); cbn; rewrite <- ?app_assoc;
    (split_and!; [done|done|apply in_or_app; cbn; tauto|done]).
Qed.

(** Without an option string no backend is opened, and the link is up. *)
Lemma attach_without_opts_link_up pi w rc sc w' :
  init pi None w = Ok (rc, sc) w' ->
  vsc_be sc = None /\ status (vsc_config sc) = 1.
Proof.
  unfold pci_vtnet_init, init_opts, bind, log, ret. cbn [Z.eqb negb].
  destruct (negb (vi_intr_init 1 fbsdrun_virtio_msix =? 0));
    intros [= _ <- _]; done.
Qed.

End AttachProperties.

Lemma reset_restores_attach_state_witness :
  exists sc0 w0',
    sample_init (mk_pi 2 0) (Some "tap0"%string) empty_world = Ok (0, sc0) w0' /\
    In 0 (w_tx_in_progress busy_world) /\
    exists sc' w',
      pci_vtnet_reset busy_softc busy_world = Ok sc' w' /\
      vsc_rx_ready sc' = 0 /\ rx_merge sc' = 1 /\ rx_vhdrlen sc' = 12 /\
      resetting sc' = 0 /\
      datapath_state sc' = datapath_state sc0.
Proof.
  eexists _, _. split; [lazy; reflexivity|]. split; [cbn; tauto|].
  eapply (reset_restores_attach_state
           (fun _ => (0, [2; 0; 0; 0; 0; 1])) (fun _ => [2; 0; 0; 0; 0; 2])
           (fun _ => Some 1) (fun _ => 0) (fun _ _ => 0) 1 0
           (mk_pi 2 0) (Some "tap0"%string) empty_world _ _ busy_softc busy_world).
  - lazy. reflexivity.
  - cbn. tauto.
Defined.

(** C3, as amended.  When [pci_vtnet_reset] returns, [vsc_rx_ready] is 0,
    [rx_merge] is 1 and [rx_vhdrlen] is the length of the merged-buffer
    header, 12 bytes. *)
Theorem reset_header_len_merged sc w sc' w' :
  pci_vtnet_reset sc w = Ok sc' w' ->
  vsc_rx_ready sc' = 0 /\ rx_merge sc' = 1 /\
  rx_vhdrlen sc' = sizeof_virtio_net_rxhdr /\ rx_vhdrlen sc' = 12.
Proof.
  intros Hreset.
  destruct (pci_vtnet_reset_cases sc w) as [(_ & w1 & Heq)|(_ & w1 & Heq)];
    rewrite Heq in Hreset; [|discriminate].
  injection Hreset as <- _. by split_and!.
Qed.

Lemma reset_header_len_merged_witness :
  exists sc' w',
    pci_vtnet_reset busy_softc busy_world = Ok sc' w' /\
    vsc_rx_ready sc' = 0 /\ rx_merge sc' = 1 /\
    rx_vhdrlen sc' = sizeof_virtio_net_rxhdr /\ rx_vhdrlen sc' = 12.
Proof.
  eexists _, _. split; [lazy; reflexivity|].
  eapply (reset_header_len_merged busy_softc busy_world). lazy. reflexivity.
Defined.

(** C3, as stated, fails.  After a reset the header length is 12; the
    legacy length is what negotiating without the merged-buffer bit then
    yields, 10. *)
Lemma reset_header_len_not_legacy :
  exists sc' w' legacy w'',
    pci_vtnet_reset busy_softc busy_world = Ok sc' w' /\
    pci_vtnet_neg_features 32768 sc' 0 w' = Ok legacy w'' /\
    rx_vhdrlen legacy = 10 /\
    rx_vhdrlen sc' = 12 /\
    rx_vhdrlen sc' <> rx_vhdrlen legacy.
Proof.
  eexists _, _, _, _. split; [lazy; reflexivity|]. split; [lazy; reflexivity|].
  cbn. split_and!; done.
Qed.

Lemma attach_open_failure_link_down_witness :
  let parse := fun _ : string => (0, [2; 0; 0; 0; 0; 1]) in
  let gen := fun _ : pci_devinst => [2; 0; 0; 0; 0; 2] in
  let open := fun _ : string => @None Z in
  let cap := fun _ : Z => 0 in
  let intr := fun _ _ : Z => 0 in
  open (fst (strsep "tap9,02:00:00:00:00:01" ","%char)) = None /\
  (forall m, snd (strsep "tap9,02:00:00:00:00:01" ","%char) = Some m ->
             fst (parse m) = 0) /\
  exists rc sc w',
    pci_vtnet_init parse gen open cap intr 1 35
                   (mk_pi 2 0) (Some "tap9,02:00:00:00:00:01"%string) empty_world
      = Ok (rc, sc) w' /\
    vsc_be sc = None /\
    status (vsc_config sc) = 0 /\
    In (EvSoftcLinkup 35) (w_trace w') /\
    (intr 1 1 = 0 ->
     rc = 0 /\
     w_trace w' = w_trace empty_world ++
       [EvSoftcLinkup 35; EvSetIoBar 0; EvTxThreadCreate]).
Proof.
  cbv zeta. split; [reflexivity|]. split; [reflexivity|].
  apply (attach_open_failure_link_down
           (fun _ => (0, [2; 0; 0; 0; 0; 1])) (fun _ => [2; 0; 0; 0; 0; 2])
           (fun _ => None) (fun _ => 0) (fun _ _ => 0) 1 35
           (mk_pi 2 0) "tap9,02:00:00:00:00:01"%string empty_world);
    reflexivity.
Defined.

(** C6, as stated, fails.  Attached without an option string, the device
    has no backend (none was opened), registers, and its status register
    reads 1: link up. *)
Lemma attach_without_backend_link_up :
  exists sc w',
    sample_init (mk_pi 2 0) None empty_world = Ok (0, sc) w' /\
    vsc_be sc = None /\
    In (EvSoftcLinkup 0) (w_trace w') /\
    status (vsc_config sc) = 1 /\
    status (vsc_config sc) <> 0.
Proof.
  eexists _, _. split; [lazy; reflexivity|]. cbn. split_and!; auto; done.
Qed.

(** ** Feature negotiation *)

(** C4.  [pci_vtnet_neg_features] stores the negotiated bits in
    [vsc_features]; without the merged-receive-buffer bit it clears
    [rx_merge] and takes 2 off [rx_vhdrlen], with the bit it leaves both, so
    that the header length without the bit is 2 less than with it; and its
    one call on the backend passes the negotiated bits and the resulting
    header length.  All of this is one call.  [rx_vhdrlen] is an
    [unsigned int] of at least 2, as it is from attach or reset on. *)
Theorem neg_features_header_len (MRG_RXBUF : Z) sc bits w :
  2 <= rx_vhdrlen sc < UINT32_MOD ->
  exists sc',
    pci_vtnet_neg_features MRG_RXBUF sc bits w =
      Ok sc' (emit (EvSetCap (vsc_be sc) bits (rx_vhdrlen sc')) w) /\
    vsc_features sc' = bits /\
    (Z.land bits MRG_RXBUF = 0 ->
     rx_merge sc' = 0 /\ rx_vhdrlen sc' = rx_vhdrlen sc - 2) /\
    (Z.land bits MRG_RXBUF <> 0 ->
     rx_merge sc' = rx_merge sc /\ rx_vhdrlen sc' = rx_vhdrlen sc) /\
    (forall bits_with sc_with w_with,
       Z.land bits MRG_RXBUF = 0 ->
       Z.land bits_with MRG_RXBUF <> 0 ->
       pci_vtnet_neg_features MRG_RXBUF sc bits_with w = Ok sc_with w_with ->
       rx_vhdrlen sc' = rx_vhdrlen sc_with - 2).
Proof.
  intros Hlen. unfold pci_vtnet_neg_features, bind, netbe_set_cap, log, ret.
  assert (Hmod : (rx_vhdrlen sc - 2) mod UINT32_MOD = rx_vhdrlen sc - 2)
    by (apply Z.mod_small; lia).
  destruct (Z.land bits MRG_RXBUF =? 0) eqn:Hbit.
  - apply Z.eqb_eq in Hbit. eexists. split; [reflexivity|]. cbn.
    rewrite Hmod. split_and!; try done.
    intros bits_with sc_with w_with _ Hwith.
    apply Z.eqb_neq in Hwith. rewrite Hwith. intros [= <- _]. reflexivity.
  - apply Z.eqb_neq in Hbit. eexists. split; [reflexivity|]. cbn.
    split_and!; try done.
Qed.

Lemma neg_features_header_len_witness :
  2 <= rx_vhdrlen ready_softc < UINT32_MOD /\
  exists sc',
    pci_vtnet_neg_features 32768 ready_softc 33 empty_world =
      Ok sc' (emit (EvSetCap (vsc_be ready_softc) 33 (rx_vhdrlen sc')) empty_world) /\
    vsc_features sc' = 33 /\
    (Z.land 33 32768 = 0 ->
     rx_merge sc' = 0 /\ rx_vhdrlen sc' = rx_vhdrlen ready_softc - 2) /\
    (Z.land 33 32768 <> 0 ->
     rx_merge sc' = rx_merge ready_softc /\ rx_vhdrlen sc' = rx_vhdrlen ready_softc) /\
    (forall bits_with sc_with w_with,
       Z.land 33 32768 = 0 ->
       Z.land bits_with 32768 <> 0 ->
       pci_vtnet_neg_features 32768 ready_softc bits_with empty_world = Ok sc_with w_with ->
       rx_vhdrlen sc' = rx_vhdrlen sc_with - 2).
Proof.
  split; [vm_compute; split; congruence|].
  apply (neg_features_header_len 32768 ready_softc 33 empty_world).
  vm_compute. split; congruence.
Defined.

(** From the state attach and reset leave, negotiating without the bit
    gives the 10-byte header, with the bit the 12-byte one. *)
Example neg_features_from_attach :
  (exists sc' w', pci_vtnet_neg_features 32768 ready_softc 33 empty_world = Ok sc' w' /\
                  rx_merge sc' = 0 /\ rx_vhdrlen sc' = 10) /\
  (exists sc' w', pci_vtnet_neg_features 32768 ready_softc (33 + 32768) empty_world = Ok sc' w' /\
                  rx_merge sc' = 1 /\ rx_vhdrlen sc' = 12).
Proof. split; eexists _, _; (split; [lazy; reflexivity|done]). Qed.

(** The subtraction is the [unsigned int] one: from a header length of 0
    it wraps. *)
Example neg_features_header_len_wraps :
  exists sc' w',
    pci_vtnet_neg_features 32768 (set_rx_vhdrlen 0 ready_softc) 33 empty_world = Ok sc' w' /\
    rx_vhdrlen sc' = 4294967294.
Proof. eexists _, _. split; [lazy; reflexivity|done]. Qed.

(** ** Config-space writes *)

Lemma le_bytes_length value size : length (le_bytes value size) = size.
Proof. unfold le_bytes. by rewrite length_fmap, length_seq. Qed.

Lemma le_bytes_lookup value size (k : nat) :
  (k < size)%nat ->
  le_bytes value size !! k = Some (Z.land (Z.shiftr value (8 * Z.of_nat k)) 255).
Proof.
  intros Hk. unfold le_bytes. rewrite list_lookup_fmap, lookup_seq_lt by done.
  reflexivity.
Qed.

(** C8.  A write of [size] bytes (at most the four of [value]) at [offset]
    that stays within the six bytes of the MAC returns 0 and stores byte
    [k] of [value] at [offset + k]; every other byte of the register block
    and every other field of the softc is as before.  A write at an offset
    of 6 or more returns 0 and leaves the softc, hence the whole register
    block, as it was. *)
Theorem cfgwrite_mac_frame :
  (forall sc offset size value w,
     length (mac (vsc_config sc)) = 6%nat ->
     0 <= offset -> 0 <= size <= 4 -> offset + size <= 6 ->
     exists sc',
       pci_vtnet_cfgwrite sc offset size value w = Ok (0, sc') w /\
       (forall i : nat,
          config_bytes (vsc_config sc') !! i =
            if decide (offset <= Z.of_nat i < offset + size)
            then Some (Z.land (Z.shiftr value (8 * (Z.of_nat i - offset))) 255)
            else config_bytes (vsc_config sc) !! i) /\
       length (config_bytes (vsc_config sc')) = length (config_bytes (vsc_config sc)) /\
       status (vsc_config sc') = status (vsc_config sc) /\
       max_virtqueue_pairs (vsc_config sc') = max_virtqueue_pairs (vsc_config sc) /\
       set_vsc_config (vsc_config sc) sc' = sc) /\
  (forall sc offset size value w,
     6 <= offset ->
     pci_vtnet_cfgwrite sc offset size value w = Ok (0, sc) w).
Proof.
  split.
  - intros sc offset size value w Hlen Hoff Hsize Hfit.
    unfold pci_vtnet_cfgwrite, sizeof_mac, bind, assert, ret, raise.
    assert (Hint : in_int (offset + size) = true).
    { unfold in_int, INT_MIN, INT_MAX. apply andb_true_iff.
      rewrite !Z.leb_le. lia. }
    rewrite Hint.
    destruct (Z.ltb_spec offset 6) as [Hlt|Hge].
    2:{ exists sc. split; [reflexivity|]. split_and!; try reflexivity; [|by destruct sc].
        intros i. by rewrite decide_False by lia. }
    replace (offset + size <=? 6) with true by (symmetry; apply Z.leb_le; lia).
    replace (offset <? 0) with false by (symmetry; apply Z.ltb_ge; lia).
    replace (size <? 0) with false by (symmetry; apply Z.ltb_ge; lia).
    replace (4 <? size) with false by (symmetry; apply Z.ltb_ge; lia).
    cbn [negb orb]. eexists. split; [reflexivity|].
    destruct sc as [be rdy rst feat hl mrg txp [m st mvp]]. cbn in Hlen |- *.
    unfold config_bytes. cbn [mac status max_virtqueue_pairs].
    split_and!; try reflexivity.
    2:{ by rewrite !length_app, length_inserts. }
    intros i.
    set (bytes := le_bytes value (Z.to_nat size)).
    assert (Hb : length bytes = Z.to_nat size) by apply le_bytes_length.
    destruct (decide (i < 6)%nat) as [Hi|Hi].
    + rewrite !lookup_app_l by (rewrite ?length_inserts; lia).
      destruct (decide (offset <= Z.of_nat i < offset + size)) as [Hin|Hout].
      * rewrite list_lookup_inserts by lia.
        unfold bytes. rewrite le_bytes_lookup by lia.
        do 3 f_equal. lia.
      * destruct (decide (Z.of_nat i < offset)).
        { by rewrite list_lookup_inserts_lt by lia. }
        { by rewrite list_lookup_inserts_ge by lia. }
    + rewrite decide_False by lia.
      rewrite !lookup_app_r by (rewrite ?length_inserts; lia).
      by rewrite length_inserts.
  - intros sc offset size value w Hoff.
    unfold pci_vtnet_cfgwrite, sizeof_mac.
    replace (offset <? 6) with false by (symmetry; apply Z.ltb_ge; lia).
    reflexivity.
Qed.

Lemma cfgwrite_mac_frame_witness :
  (length (mac (vsc_config ready_softc)) = 6%nat /\
   0 <= 5 /\ 0 <= 1 <= 4 /\ 5 + 1 <= 6 /\
   exists sc',
     pci_vtnet_cfgwrite ready_softc 5 1 171 empty_world = Ok (0, sc') empty_world /\
     config_bytes (vsc_config ready_softc) = [2; 0; 0; 0; 0; 1; 1; 0; 0; 0] /\
     config_bytes (vsc_config sc') = [2; 0; 0; 0; 0; 171; 1; 0; 0; 0]) /\
  (6 <= 8 /\
   pci_vtnet_cfgwrite ready_softc 8 2 171 empty_world = Ok (0, ready_softc) empty_world).
Proof.
  split.
  - split; [reflexivity|]. split; [lia|]. split; [lia|]. split; [lia|].
    destruct (proj1 cfgwrite_mac_frame ready_softc 5 1 171 empty_world)
      as (sc' & Heq & _); [reflexivity|lia|lia|lia|].
    exists sc'. split; [exact Heq|].
    vm_compute in Heq. injection Heq as <-. split; reflexivity.
  - split; [lia|].
    apply (proj2 cfgwrite_mac_frame ready_softc 8 2 171 empty_world). lia.
Defined.

(** C10.  A write that starts within the MAC and ends past its sixth byte
    fails the assertion: nothing is stored and the call does not return.
    ([offset + size] is an [int], so it does not exceed [INT_MAX].) *)
Theorem cfgwrite_mac_overrun_asserts sc offset size value w :
  offset < 6 -> 6 < offset + size -> offset + size <= INT_MAX ->
  pci_vtnet_cfgwrite sc offset size value w = Fault AssertionFailed w.
Proof.
  intros Hoff Hover Hint.
  unfold pci_vtnet_cfgwrite, sizeof_mac, bind, assert, raise.
  replace (offset <? 6) with true by (symmetry; apply Z.ltb_lt; lia).
  replace (in_int (offset + size)) with true.
  2:{ symmetry. unfold in_int, INT_MIN. apply andb_true_iff.
      rewrite !Z.leb_le. lia. }
  replace (offset + size <=? 6) with false by (symmetry; apply Z.leb_gt; lia).
  reflexivity.
Qed.

Lemma cfgwrite_mac_overrun_asserts_witness :
  4 < 6 /\ 6 < 4 + 4 /\ 4 + 4 <= INT_MAX /\
  pci_vtnet_cfgwrite ready_softc 4 4 287454020 empty_world
    = Fault AssertionFailed empty_world.
Proof.
  split; [lia|]. split; [lia|]. split; [vm_compute; congruence|].
  apply (cfgwrite_mac_overrun_asserts ready_softc 4 4 287454020 empty_world).
  - lia.
  - lia.
  - vm_compute. congruence.
Defined.

(** * Further properties *)

(** ** The receive loop, call by call *)

Lemma chain_ok_test c :
  chain_ok c ->
  (1 <=? Z.of_nat (length (ch_descs c)))
  && (Z.of_nat (length (ch_descs c)) <=? VTNET_MAXSEGS) = true.
Proof.
  unfold chain_ok, VTNET_MAXSEGS. intros H.
  apply andb_true_iff. rewrite !Z.leb_le. lia.
Qed.

(** The loop makes the calls of [rx_loop_events], advances the queue by
    [rx_loop_consumed] and, with accepted chains only, leaves normally. *)
Lemma pci_vtnet_rx_loop_exact fuel : forall sc w,
  vq_pending (w_rxq w) <> [] ->
  (length (vq_pending (w_rxq w)) <= fuel)%nat ->
  w_trace (result_world (pci_vtnet_rx_loop fuel sc w)) =
    w_trace w ++ rx_loop_events (vsc_be sc) (vq_pending (w_rxq w)) (w_recv w) /\
  w_rxq (result_world (pci_vtnet_rx_loop fuel sc w)) =
    mk_vq (vq_ring (w_rxq w))
          (vq_last_avail (w_rxq w) + rx_loop_consumed (vq_pending (w_rxq w)) (w_recv w)) /\
  w_txq (result_world (pci_vtnet_rx_loop fuel sc w)) = w_txq w /\
  (Forall chain_ok (vq_pending (w_rxq w)) ->
   exists e, outcome (pci_vtnet_rx_loop fuel sc w) = inl e).
Proof.
  induction fuel as [|fuel IH]; intros sc w Hne Hfuel.
  - destruct (vq_pending (w_rxq w)); [congruence | simpl in Hfuel; lia].
  - destruct (vq_pending (w_rxq w)) as [|c rest] eqn:Hp; [congruence|].
    pose proof (vq_pending_advance _ _ _ Hp) as Hadv.
    rewrite (pci_vtnet_rx_loop_round _ _ _ _ _ Hp). cbv zeta.
    cbn [rx_loop_events rx_loop_consumed].
    set (n := Z.of_nat (length (ch_descs c))).
    set (len := default 0 (head (w_recv w))).
    destruct ((1 <=? n) && (n <=? VTNET_MAXSEGS)) eqn:Hn.
    2:{ cbn. split_and!; try reflexivity.
        - destruct (w_rxq w); cbn. f_equal. lia.
        - intros Hok. apply Forall_cons in Hok as [Hok _].
          apply chain_ok_test in Hok. fold n in Hok. congruence. }
    destruct (len <? 0) eqn:Hneg.
    { cbn. rewrite <- !app_assoc. split_and!; try reflexivity; [|by eexists].
      destruct (w_rxq w); cbn. f_equal. lia. }
    destruct (len =? 0) eqn:Hz.
    { cbn. rewrite <- !app_assoc. split_and!; try reflexivity; [|by eexists].
      destruct (w_rxq w); cbn. f_equal. lia. }
    destruct rest as [|c' rest'].
    + cbn. rewrite <- !app_assoc. split_and!; try reflexivity; [|by eexists].
      destruct (w_rxq w); cbn. f_equal. lia.
    + match goal with |- context [pci_vtnet_rx_loop fuel sc ?w'] =>
        set (w3 := w') end.
      assert (Hp3 : vq_pending (w_rxq w3) = c' :: rest') by exact Hadv.
      destruct (IH sc w3) as (Htr & Hq & Htx & Hok).
      { rewrite Hp3. done. }
      { rewrite Hp3. simpl in *. lia. }
      rewrite Hp3 in Htr, Hq, Hok. rewrite Htr, Hq, Htx.
      unfold w3. cbn. rewrite <- !app_assoc. split_and!; try reflexivity.
      * f_equal. lia.
      * intros Hall. apply Forall_cons in Hall as [_ Hall]. by apply Hok.
Qed.

(** The handler on a ready device with buffers posted: the test of the
    queue, the loop, and possibly the closing flush. *)
Lemma pci_vtnet_rx_exact sc w :
  vsc_rx_ready sc <> 0 -> resetting sc = 0 -> vq_pending (w_rxq w) <> [] ->
  (exists tl,
     (tl = [] \/ tl = [EvEndchains VTNET_RXQ 1]) /\
     w_trace (result_world (pci_vtnet_rx sc w)) =
       w_trace w ++ EvHasDescs VTNET_RXQ true ::
         rx_loop_events (vsc_be sc) (vq_pending (w_rxq w)) (w_recv w) ++ tl) /\
  w_rxq (result_world (pci_vtnet_rx sc w)) =
    mk_vq (vq_ring (w_rxq w))
          (vq_last_avail (w_rxq w) + rx_loop_consumed (vq_pending (w_rxq w)) (w_recv w)) /\
  w_txq (result_world (pci_vtnet_rx sc w)) = w_txq w /\
  (Forall chain_ok (vq_pending (w_rxq w)) ->
   exists w', pci_vtnet_rx sc w = Ok tt w').
Proof.
  intros Hready Hreset Hne. unfold pci_vtnet_rx.
  rewrite (proj2 (rx_gate_open sc)) by done.
  destruct (vq_pending (w_rxq w)) as [|c rest] eqn:Hp; [congruence|].
  unfold bind, vq_has_descs. cbn [get_vq]. rewrite Hp.
  cbn [negb emit w_rxq]. rewrite Hp.
  match goal with |- context [pci_vtnet_rx_loop ?f sc ?w'] =>
    set (w1 := w');
    destruct (pci_vtnet_rx_loop_exact f sc w1) as (Htr & Hq & Htx & Hok) end.
  { unfold w1. cbn [emit w_rxq]. by rewrite Hp. }
  { unfold w1. cbn [emit w_rxq]. by rewrite Hp. }
  assert (Hp1 : vq_pending (w_rxq w1) = c :: rest) by exact Hp.
  rewrite Hp1 in Htr, Hq, Hok.
  destruct (pci_vtnet_rx_loop _ sc w1) as [e w'|f w'];
    cbn [result_world outcome] in Htr, Hq, Htx, Hok.
  - destruct e; cbn [result_world ret vq_endchains log emit w_trace w_rxq w_txq];
      rewrite Htr, Hq, Htx; unfold w1; cbn [emit w_trace w_rxq w_txq w_recv];
      rewrite <- ?app_assoc; cbn [app].
    + split_and!; try reflexivity; [|by eexists].
      exists []. split; [by left|]. by rewrite app_nil_r.
    + split_and!; try reflexivity; [|by eexists].
      exists [EvEndchains VTNET_RXQ 1]. split; [by right|]. reflexivity.
    + split_and!; try reflexivity; [|by eexists].
      exists [EvEndchains VTNET_RXQ 1]. split; [by right|]. reflexivity.
  - cbn [result_world]. rewrite Htr, Hq, Htx. unfold w1.
    cbn [emit w_trace w_rxq w_txq w_recv]. rewrite <- ?app_assoc. cbn [app].
    split_and!; try reflexivity.
    + exists []. split; [by left|]. by rewrite app_nil_r.
    + intros Hall. destruct (Hok Hall) as [e He]. discriminate.
Qed.

(** Every run of the handler makes one of three series of calls. *)
Lemma pci_vtnet_rx_events sc w :
  exists evs,
    w_trace (result_world (pci_vtnet_rx sc w)) = w_trace w ++ evs /\
    ((exists r, evs = [EvRecv (vsc_be sc) discard_iov 1 r]) \/
     (exists r, vq_pending (w_rxq w) = [] /\
                evs = [EvHasDescs VTNET_RXQ false;
                       EvRecv (vsc_be sc) discard_iov 1 r;
                       EvEndchains VTNET_RXQ 1]) \/
     (exists tl, (tl = [] \/ tl = [EvEndchains VTNET_RXQ 1]) /\
                 evs = EvHasDescs VTNET_RXQ true ::
                   rx_loop_events (vsc_be sc) (vq_pending (w_rxq w)) (w_recv w) ++ tl)).
Proof.
  destruct ((vsc_rx_ready sc =? 0) || negb (resetting sc =? 0)) eqn:Hgate.
  - unfold pci_vtnet_rx. rewrite Hgate. cbn. eexists. split; [reflexivity|].
    left. by eexists.
  - destruct (vq_pending (w_rxq w)) as [|c rest] eqn:Hp.
    + unfold pci_vtnet_rx. rewrite Hgate.
      unfold bind, vq_has_descs. cbn [get_vq]. rewrite Hp. cbn.
      rewrite <- !app_assoc. eexists. split; [reflexivity|].
      right. left. by eexists.
    + apply rx_gate_open in Hgate as [Hready Hreset].
      destruct (pci_vtnet_rx_exact sc w Hready Hreset) as ((tl & Htl & Htr) & _).
      { by rewrite Hp. }
      rewrite Hp in Htr. eexists. split; [exact Htr|]. right. right. by exists tl.
Qed.

Lemma completions_app q a b :
  completions q (a ++ b) = completions q a ++ completions q b.
Proof.
  induction a as [|e a IH]; [reflexivity|].
  destruct e; cbn; try exact IH. destruct q, q0; cbn; by rewrite ?IH.
Qed.

Lemma pull_count_app a b : pull_count (a ++ b) = (pull_count a + pull_count b)%nat.
Proof. induction a as [|e a IH]; [reflexivity|]. cbn. rewrite IH. lia. Qed.

(** What the loop publishes: the chains in order, one per answer that is
    a length. *)
Lemma completions_rx_loop_events be cs : forall rs,
  Forall chain_ok cs ->
  completions VTNET_RXQ (rx_loop_events be cs rs) =
    zip (ch_idx <$> cs) (positive_prefix rs).
Proof.
  induction cs as [|c cs IH]; intros rs Hok; [reflexivity|].
  apply Forall_cons in Hok as [Hc Hok]. cbn [rx_loop_events fmap list_fmap].
  rewrite (chain_ok_test c Hc).
  destruct rs as [|r rs]; [by cbn|]. cbn [head default tail positive_prefix]. unfold id.
  destruct (Z.ltb_spec r 0); [by destruct (Z.ltb_spec 0 r); [lia|cbn]|].
  destruct (Z.eqb_spec r 0); [by destruct (Z.ltb_spec 0 r); [lia|cbn]|].
  destruct (Z.ltb_spec 0 r); [|lia]. cbn. f_equal.
  destruct cs as [|c' cs']; [reflexivity|]. cbn [completions]. by apply IH.
Qed.

Lemma rx_loop_consumed_delivered cs : forall rs,
  Forall chain_ok cs -> Forall (fun r => 0 <= r) rs ->
  rx_loop_consumed cs rs = Nat.min (length cs) (length (positive_prefix rs)).
Proof.
  induction cs as [|c cs IH]; intros rs Hok Hrs; [reflexivity|].
  apply Forall_cons in Hok as [Hc Hok]. cbn [rx_loop_consumed].
  rewrite (chain_ok_test c Hc).
  destruct rs as [|r rs]; [cbn; lia|].
  cbn [head default tail positive_prefix]. unfold id.
  apply Forall_cons in Hrs as [Hr Hrs].
  destruct (Z.ltb_spec r 0); [lia|].
  destruct (Z.eqb_spec r 0); [destruct (Z.ltb_spec 0 r); [lia|cbn; lia]|].
  destruct (Z.ltb_spec 0 r); [|lia]. cbn. f_equal. by apply IH.
Qed.

Lemma pull_count_rx_loop_events be cs : forall rs,
  (pull_count (rx_loop_events be cs rs) <= length cs)%nat.
Proof.
  induction cs as [|c cs IH]; intros rs; [reflexivity|].
  cbn [rx_loop_events]. destruct (_ && _); [|cbn; lia].
  destruct (_ <? 0); [cbn; lia|]. destruct (_ =? 0); [cbn; lia|].
  destruct cs as [|c' cs']; [cbn; lia|].
  specialize (IH (tail rs)). cbn in *. lia.
Qed.

(** What the loop hands to the backend: all the descriptors of a pending
    chain, with their number, which is within the bound. *)
Lemma recv_rx_loop_events be cs : forall rs be' iov n r,
  In (EvRecv be' iov n r) (rx_loop_events be cs rs) ->
  be' = be /\ n = Z.of_nat (length iov) /\ 1 <= n <= 256 /\
  exists c, In c cs /\ iov = ch_descs c.
Proof.
  induction cs as [|c cs IH]; intros rs be' iov n r Hin; [destruct Hin|].
  cbn [rx_loop_events] in Hin.
  destruct ((1 <=? _) && _) eqn:Hn; [|cbn in Hin; intuition discriminate].
  apply in_segs_test in Hn. unfold in_segs, VTNET_MAXSEGS in Hn.
  assert (Htake : take (Z.to_nat VTNET_MAXSEGS) (ch_descs c) = ch_descs c).
  { apply take_ge. unfold VTNET_MAXSEGS. lia. }
  rewrite Htake in Hin.
  destruct Hin as [|[Heq|Hin]]; [discriminate| |].
  - injection Heq as <- <- <- _.
    split; [done|]. split; [done|]. split; [lia|].
    exists c. split; [by left|done].
  - destruct (_ <? 0); [destruct Hin|].
    destruct (_ =? 0); [cbn in Hin; intuition discriminate|].
    destruct Hin as [|Hin]; [discriminate|].
    destruct cs as [|c' cs']; [cbn in Hin; intuition discriminate|].
    destruct Hin as [|Hin]; [discriminate|].
    destruct (IH _ _ _ _ _ Hin) as (? & ? & ? & c0 & ? & ?).
    split; [done|]. split; [done|]. split; [done|].
    exists c0. split; [by right|done].
Qed.

(** ** Receive: what is delivered, and where *)

(** X1.  On a ready device whose posted chains all have 1 to 256
    descriptors, the receive handler returns, and what it publishes on the
    receive queue is, in order, the chains in the order the guest posted
    them, each with the length the backend answered, for as long as the
    backend answers with lengths and chains are left. *)
Theorem rx_delivers_in_order sc w :
  vsc_rx_ready sc <> 0 -> resetting sc = 0 ->
  Forall chain_ok (vq_pending (w_rxq w)) ->
  exists w' evs,
    pci_vtnet_rx sc w = Ok tt w' /\
    w_trace w' = w_trace w ++ evs /\
    completions VTNET_RXQ evs =
      zip (ch_idx <$> vq_pending (w_rxq w)) (positive_prefix (w_recv w)).
Proof.
  intros Hready Hreset Hok.
  destruct (vq_pending (w_rxq w)) as [|c rest] eqn:Hp.
  - unfold pci_vtnet_rx. rewrite (proj2 (rx_gate_open sc)) by done.
    unfold bind, vq_has_descs. cbn [get_vq]. rewrite Hp. cbn.
    eexists _, _. split; [reflexivity|]. cbn. rewrite <- !app_assoc.
    split; reflexivity.
  - destruct (pci_vtnet_rx_exact sc w Hready Hreset) as ((tl & Htl & Htr) & _ & _ & Hret).
    { by rewrite Hp. }
    rewrite Hp in Htr, Hret. destruct (Hret Hok) as [w' Hw'].
    rewrite Hw' in Htr. cbn [result_world] in Htr.
    eexists _, _. split; [exact Hw'|]. split; [exact Htr|].
    cbn [completions]. rewrite completions_app, completions_rx_loop_events by done.
    destruct Htl as [-> | ->]; cbn; by rewrite app_nil_r.
Qed.

Lemma rx_delivers_in_order_witness :
  vsc_rx_ready ready_softc <> 0 /\ resetting ready_softc = 0 /\
  Forall chain_ok (vq_pending (w_rxq (posted_world [1500; 60; 0; 700]))) /\
  exists w' evs,
    pci_vtnet_rx ready_softc (posted_world [1500; 60; 0; 700]) = Ok tt w' /\
    w_trace w' = w_trace (posted_world [1500; 60; 0; 700]) ++ evs /\
    completions VTNET_RXQ evs = [(0, 1500); (1, 60)].
Proof.
  split; [discriminate|]. split; [reflexivity|].
  assert (Hok : Forall chain_ok (vq_pending (w_rxq (posted_world [1500; 60; 0; 700])))).
  { repeat constructor; unfold chain_ok; cbn; lia. }
  split; [exact Hok|].
  apply (rx_delivers_in_order ready_softc (posted_world [1500; 60; 0; 700]));
    [discriminate | reflexivity | exact Hok].
Defined.

(** X2.  If moreover the backend reports no hard error, the chains the
    handler did not publish are still pending afterwards, in their order:
    the queue has advanced by the number of chains published, its ring is
    as the guest wrote it, and the transmit queue is untouched. *)
Theorem rx_unused_buffers_stay sc w :
  vsc_rx_ready sc <> 0 -> resetting sc = 0 ->
  Forall chain_ok (vq_pending (w_rxq w)) ->
  Forall (fun r => 0 <= r) (w_recv w) ->
  exists w',
    pci_vtnet_rx sc w = Ok tt w' /\
    vq_ring (w_rxq w') = vq_ring (w_rxq w) /\
    vq_pending (w_rxq w') =
      drop (Nat.min (length (vq_pending (w_rxq w)))
                    (length (positive_prefix (w_recv w))))
           (vq_pending (w_rxq w)) /\
    w_txq w' = w_txq w.
Proof.
  intros Hready Hreset Hok Hrs.
  destruct (vq_pending (w_rxq w)) as [|c rest] eqn:Hp.
  - unfold pci_vtnet_rx. rewrite (proj2 (rx_gate_open sc)) by done.
    unfold bind, vq_has_descs. cbn [get_vq]. rewrite Hp. cbn.
    eexists. split; [reflexivity|]. cbn. by rewrite Hp.
  - destruct (pci_vtnet_rx_exact sc w Hready Hreset) as (_ & Hq & Htx & Hret).
    { by rewrite Hp. }
    rewrite Hp in Hq, Hret. destruct (Hret Hok) as [w' Hw'].
    rewrite Hw' in Hq, Htx. cbn [result_world] in Hq, Htx.
    exists w'. split; [exact Hw'|]. rewrite Hq. cbn [vq_ring].
    split; [reflexivity|]. split; [|exact Htx].
    rewrite rx_loop_consumed_delivered by done.
    unfold vq_pending in *. cbn [vq_ring vq_last_avail].
    by rewrite <- drop_drop, Hp.
Qed.

Lemma rx_unused_buffers_stay_witness :
  vsc_rx_ready ready_softc <> 0 /\ resetting ready_softc = 0 /\
  Forall chain_ok (vq_pending (w_rxq (posted_world [1500]))) /\
  Forall (fun r => 0 <= r) (w_recv (posted_world [1500])) /\
  exists w',
    pci_vtnet_rx ready_softc (posted_world [1500]) = Ok tt w' /\
    vq_ring (w_rxq w') = [rx_chain 0; rx_chain 1; rx_chain 2] /\
    vq_pending (w_rxq w') = [rx_chain 1; rx_chain 2] /\
    w_txq w' = w_txq (posted_world [1500]).
Proof.
  split; [discriminate|]. split; [reflexivity|].
  assert (Hok : Forall chain_ok (vq_pending (w_rxq (posted_world [1500])))).
  { repeat constructor; unfold chain_ok; cbn; lia. }
  assert (Hrs : Forall (fun r => 0 <= r) (w_recv (posted_world [1500]))).
  { repeat constructor. cbn. lia. }
  split; [exact Hok|]. split; [exact Hrs|].
  apply (rx_unused_buffers_stay ready_softc (posted_world [1500]));
    [discriminate | reflexivity | exact Hok | exact Hrs].
Defined.

(** X3.  Whatever the state, every backend receive of the handler is given
    the device's backend, a count equal to the number of entries of the
    vector, between 1 and 256, and either the discard buffer alone or all
    the descriptors of one chain that was pending. *)
Theorem rx_recv_targets sc w :
  exists evs,
    w_trace (result_world (pci_vtnet_rx sc w)) = w_trace w ++ evs /\
    forall be iov n r,
      In (EvRecv be iov n r) evs ->
      be = vsc_be sc /\ n = Z.of_nat (length iov) /\ 1 <= n <= 256 /\
      (iov = [mk_iovec dummybuf sizeof_dummybuf] \/
       exists c, In c (vq_pending (w_rxq w)) /\ iov = ch_descs c).
Proof.
  destruct (pci_vtnet_rx_events sc w)
    as (evs & Htr & [[r0 ->]|[(r0 & _ & ->)|(tl & Htl & ->)]]);
    exists evs || eexists; (split; [exact Htr|]); intros be iov n r Hin.
  - destruct Hin as [Heq|[]]. injection Heq as <- <- <- _.
    split; [done|]. split; [done|]. split; [lia|]. by left.
  - destruct Hin as [|[Heq|[|[]]]]; try discriminate. injection Heq as <- <- <- _.
    split; [done|]. split; [done|]. split; [lia|]. by left.
  - destruct Hin as [|Hin]; [discriminate|]. apply in_app_or in Hin as [Hin|Hin].
    + destruct (recv_rx_loop_events _ _ _ _ _ _ _ Hin) as (? & ? & ? & ?).
      split; [done|]. split; [done|]. split; [done|]. by right.
    + destruct Htl as [-> | ->]; cbn in Hin; intuition discriminate.
Qed.

(** X4.  The handler always returns or fails an assertion, and it pulls at
    most as many chains as were pending when it was called. *)
Theorem rx_pulls_bounded sc w :
  exists evs,
    w_trace (result_world (pci_vtnet_rx sc w)) = w_trace w ++ evs /\
    (pull_count evs <= length (vq_pending (w_rxq w)))%nat /\
    (outcome (pci_vtnet_rx sc w) = inl tt \/
     outcome (pci_vtnet_rx sc w) = inr AssertionFailed).
Proof.
  assert (Hout : outcome (pci_vtnet_rx sc w) = inl tt \/
                 outcome (pci_vtnet_rx sc w) = inr AssertionFailed).
  { destruct (pci_vtnet_rx_run sc w) as (evs' & _ & Hrun).
    destruct (outcome (pci_vtnet_rx sc w)) as [[]|f]; [by left|right].
    inversion Hrun as [| |evs'' k Hr Hs Hloop He Ho].
    destruct k as [e|f']; [discriminate|]. cbn in Ho. injection Ho as ->.
    by rewrite (rx_loop_run_fault _ _ _ Hloop). }
  destruct (pci_vtnet_rx_events sc w)
    as (evs & Htr & [[r0 ->]|[(r0 & _ & ->)|(tl & Htl & ->)]]);
    eexists; (split; [exact Htr|]); (split; [|exact Hout]).
  - cbn. lia.
  - cbn. lia.
  - cbn [pull_count pulls]. rewrite pull_count_app.
    pose proof (pull_count_rx_loop_events (vsc_be sc) (vq_pending (w_rxq w)) (w_recv w)).
    destruct Htl as [-> | ->]; cbn; lia.
Qed.

(** X5.  On a ready device with no chain pending, the handler drops one
    datagram into the discard buffer and flushes the receive queue with the
    force flag set; it pulls and publishes nothing and leaves the queues as
    they were. *)
Theorem rx_without_buffers_drops sc w :
  vsc_rx_ready sc <> 0 -> resetting sc = 0 -> vq_pending (w_rxq w) = [] ->
  exists w',
    pci_vtnet_rx sc w = Ok tt w' /\
    w_trace w' = w_trace w ++
      [EvHasDescs VTNET_RXQ false;
       EvRecv (vsc_be sc) [mk_iovec dummybuf sizeof_dummybuf] 1
              (default 0 (head (w_recv w)));
       EvEndchains VTNET_RXQ 1] /\
    w_rxq w' = w_rxq w /\ w_txq w' = w_txq w /\ w_recv w' = tail (w_recv w).
Proof.
  intros Hready Hreset Hp. unfold pci_vtnet_rx.
  rewrite (proj2 (rx_gate_open sc)) by done.
  unfold bind, vq_has_descs. cbn [get_vq]. rewrite Hp. cbn.
  eexists. split; [reflexivity|]. cbn. rewrite <- !app_assoc. by split_and!.
Qed.

Lemma rx_without_buffers_drops_witness :
  let w := mk_world (mk_vq [rx_chain 0] 1) (mk_vq [] 0) [1500; 60] [] [] in
  vsc_rx_ready ready_softc <> 0 /\ resetting ready_softc = 0 /\
  vq_pending (w_rxq w) = [] /\
  exists w',
    pci_vtnet_rx ready_softc w = Ok tt w' /\
    w_trace w' = w_trace w ++
      [EvHasDescs VTNET_RXQ false;
       EvRecv (vsc_be ready_softc) [mk_iovec dummybuf sizeof_dummybuf] 1
              (default 0 (head (w_recv w)));
       EvEndchains VTNET_RXQ 1] /\
    w_rxq w' = w_rxq w /\ w_txq w' = w_txq w /\ w_recv w' = tail (w_recv w).
Proof.
  cbv zeta. split; [discriminate|]. split; [reflexivity|]. split; [reflexivity|].
  apply rx_without_buffers_drops; [discriminate | reflexivity | reflexivity].
Defined.


(** ** Transmit: one chain, one send *)

Lemma proctx_len_fold iov : forall a,
  fold_left (fun len v => (len + iov_len v) mod UINT32_MOD) iov (a mod UINT32_MOD) =
  (a + iov_total iov) mod UINT32_MOD.
Proof.
  induction iov as [|v iov IH]; intros a; cbn [fold_left iov_total foldr].
  - by rewrite Z.add_0_r.
  - rewrite Z.add_mod_idemp_l by (unfold UINT32_MOD; lia).
    rewrite IH. f_equal. fold (iov_total iov). lia.
Qed.

(** The length [pci_vtnet_proctx] computes is the sum of the lengths of
    the descriptors, in [uint32_t]. *)
Lemma chain_total_sum c :
  chain_total c = iov_total (ch_descs c) mod UINT32_MOD.
Proof.
  unfold chain_total, proctx_len. rewrite Nat2Z.id, firstn_all.
  change 0 with (0 mod UINT32_MOD) at 1. by rewrite proctx_len_fold.
Qed.

Lemma take_maxsegs c :
  chain_ok c -> take (Z.to_nat VTNET_MAXSEGS) (ch_descs c) = ch_descs c.
Proof. unfold chain_ok, VTNET_MAXSEGS. intros H. apply take_ge. lia. Qed.

(** One call of [pci_vtnet_proctx] on an accepted chain, spelled out. *)
Lemma pci_vtnet_proctx_ok sc w c rest :
  vq_pending (w_txq w) = c :: rest -> chain_ok c ->
  pci_vtnet_proctx sc w =
    let n := Z.of_nat (length (ch_descs c)) in
    let iov := take (Z.to_nat VTNET_MAXSEGS) (ch_descs c) in
    let len := proctx_len iov n in
    Ok tt (emit (EvRelchain VTNET_TXQ (ch_idx c) len)
             (emit (EvSend (vsc_be sc) iov n len 0)
                (emit (EvGetchain VTNET_TXQ VTNET_MAXSEGS n (ch_idx c))
                   (set_vq VTNET_TXQ
                      (mk_vq (vq_ring (w_txq w)) (S (vq_last_avail (w_txq w)))) w)))).
Proof.
  intros Hp Hok.
  unfold pci_vtnet_proctx, bind, vq_getchain. cbn [get_vq]. rewrite Hp.
  cbn [gc_n gc_idx gc_iov]. by rewrite (chain_ok_test c Hok).
Qed.

(** X7.  On a pending chain of 1 to 256 descriptors [pci_vtnet_proctx]
    makes three calls: it pulls the chain with a limit of 256, hands all
    its descriptors to the backend in one send whose length is the sum of
    the descriptor lengths modulo 2^32, and publishes the chain with that
    same length.  The transmit queue advances by this one chain. *)
Theorem proctx_sends_whole_chain sc w c rest :
  vq_pending (w_txq w) = c :: rest -> chain_ok c ->
  let n := Z.of_nat (length (ch_descs c)) in
  let len := iov_total (ch_descs c) mod 2 ^ 32 in
  exists w',
    pci_vtnet_proctx sc w = Ok tt w' /\
    w_trace w' = w_trace w ++
      [EvGetchain VTNET_TXQ 256 n (ch_idx c);
       EvSend (vsc_be sc) (ch_descs c) n len 0;
       EvRelchain VTNET_TXQ (ch_idx c) len] /\
    vq_pending (w_txq w') = rest /\
    vq_ring (w_txq w') = vq_ring (w_txq w) /\
    w_rxq w' = w_rxq w.
Proof.
  intros Hp Hok n len.
  pose proof (vq_pending_advance _ _ _ Hp) as Hadv.
  rewrite (pci_vtnet_proctx_ok sc w c rest Hp Hok). cbv zeta.
  rewrite (take_maxsegs c Hok). fold (chain_total c). rewrite chain_total_sum.
  eexists. split; [reflexivity|]. cbn. rewrite <- !app_assoc.
  split_and!; try reflexivity. exact Hadv.
Qed.

Lemma proctx_sends_whole_chain_witness :
  vq_pending (w_txq tx_world) = [tx_frame] /\ chain_ok tx_frame /\
  exists w',
    pci_vtnet_proctx ready_softc tx_world = Ok tt w' /\
    w_trace w' = w_trace tx_world ++
      [EvGetchain VTNET_TXQ 256 3 5;
       EvSend (Some 1) (ch_descs tx_frame) 3 1514 0;
       EvRelchain VTNET_TXQ 5 1514] /\
    vq_pending (w_txq w') = [] /\
    vq_ring (w_txq w') = vq_ring (w_txq tx_world) /\
    w_rxq w' = w_rxq tx_world.
Proof.
  split; [reflexivity|].
  assert (Hok : chain_ok tx_frame) by (unfold chain_ok; cbn; lia).
  split; [exact Hok|].
  apply (proctx_sends_whole_chain ready_softc tx_world tx_frame []);
    [reflexivity | exact Hok].
Defined.

(** ** The transmit thread *)

(** A burst over accepted chains makes the calls of [tx_drain_events] and
    empties the queue. *)
Lemma pci_vtnet_tx_drain_exact fuel : forall sc w,
  vq_pending (w_txq w) <> [] ->
  (length (vq_pending (w_txq w)) <= fuel)%nat ->
  Forall chain_ok (vq_pending (w_txq w)) ->
  exists w',
    pci_vtnet_tx_drain fuel sc w = Ok tt w' /\
    w_trace w' = w_trace w ++ tx_drain_events (vsc_be sc) (vq_pending (w_txq w)) /\
    w_txq w' = mk_vq (vq_ring (w_txq w))
                     (vq_last_avail (w_txq w) + length (vq_pending (w_txq w))) /\
    w_rxq w' = w_rxq w /\ w_recv w' = w_recv w.
Proof.
  induction fuel as [|fuel IH]; intros sc w Hne Hfuel Hok.
  - destruct (vq_pending (w_txq w)); [congruence | simpl in Hfuel; lia].
  - destruct (vq_pending (w_txq w)) as [|c rest] eqn:Hp; [congruence|].
    apply Forall_cons in Hok as [Hc Hok].
    pose proof (vq_pending_advance _ _ _ Hp) as Hadv.
    cbn [pci_vtnet_tx_drain tx_drain_events]. unfold bind at 1.
    rewrite (pci_vtnet_proctx_ok sc w c rest Hp Hc). cbv zeta.
    rewrite (chain_ok_test c Hc).
    unfold bind, vq_has_descs.
    cbn [get_vq emit set_vq w_rxq w_txq w_recv w_tx_in_progress w_trace].
    rewrite Hadv. destruct rest as [|c' rest'].
    + eexists. split; [reflexivity|]. cbn. rewrite <- !app_assoc.
      split_and!; try reflexivity. f_equal. lia.
    + match goal with |- context [pci_vtnet_tx_drain fuel sc ?w'] =>
        set (w3 := w') end.
      assert (Hp3 : vq_pending (w_txq w3) = c' :: rest') by exact Hadv.
      destruct (IH sc w3) as (w' & Heq & Htr & Hq & Hrx & Hrecv).
      { by rewrite Hp3. }
      { rewrite Hp3. simpl in *. lia. }
      { by rewrite Hp3. }
      rewrite Hp3 in Htr, Hq. exists w'. split; [exact Heq|].
      rewrite Htr, Hq, Hrx, Hrecv. unfold w3. cbn. rewrite <- !app_assoc.
      split_and!; try reflexivity. f_equal. lia.
Qed.

(** What a burst over accepted chains sends and publishes: every chain
    once, in order, whole, with the sum of its descriptor lengths. *)
Lemma tx_drain_events_sends be cs :
  Forall chain_ok cs ->
  sends (tx_drain_events be cs) =
    (fun c => (ch_descs c, iov_total (ch_descs c) mod 2 ^ 32)) <$> cs /\
  completions VTNET_TXQ (tx_drain_events be cs) =
    (fun c => (ch_idx c, iov_total (ch_descs c) mod 2 ^ 32)) <$> cs /\
  pull_count (tx_drain_events be cs) = length cs.
Proof.
  induction cs as [|c cs IH]; intros Hok; [done|].
  apply Forall_cons in Hok as [Hc Hok]. destruct (IH Hok) as (IHs & IHc & IHp).
  cbn [tx_drain_events]. rewrite (chain_ok_test c Hc), (take_maxsegs c Hc).
  fold (chain_total c). rewrite chain_total_sum. cbv zeta.
  destruct cs as [|c' cs']; [done|].
  cbn [sends completions pull_count pulls fmap list_fmap length].
  rewrite IHs, IHc, IHp. done.
Qed.

Lemma sends_app a b : sends (a ++ b) = sends a ++ sends b.
Proof.
  induction a as [|e a IH]; [reflexivity|]. destruct e; cbn; by rewrite ?IH.
Qed.

(** Setting and clearing the flag in a [uint16_t] word. *)
Lemma vu_flags_set_lor N f :
  is_u16 N -> is_u16 f -> vu_flags_set N f = Z.lor f N.
Proof.
  unfold is_u16, vu_flags_set. intros HN Hf.
  rewrite <- Z.land_ones by lia. rewrite Z.land_lor_distr_l.
  rewrite !Z.land_ones by lia. by rewrite !Z.mod_small by lia.
Qed.

Lemma vu_flags_clear_land N f :
  is_u16 f -> vu_flags_clear N f = Z.land f (Z.lnot N).
Proof.
  unfold is_u16, vu_flags_clear. intros Hf.
  rewrite <- Z.land_ones by lia.
  rewrite <- Z.land_assoc, (Z.land_comm (Z.lnot N)), Z.land_assoc.
  rewrite Z.land_ones by lia. by rewrite Z.mod_small by lia.
Qed.

Lemma flag_set_test N f : Z.land (Z.lor f N) N = N.
Proof.
  apply Z.bits_inj'. intros n Hn. rewrite Z.land_spec, Z.lor_spec.
  by destruct (Z.testbit f n), (Z.testbit N n).
Qed.

Lemma flag_clear_test N f : Z.land (Z.land f (Z.lnot N)) N = 0.
Proof.
  apply Z.bits_inj'. intros n Hn.
  rewrite !Z.land_spec, Z.lnot_spec, Z.bits_0 by lia.
  by destruct (Z.testbit f n), (Z.testbit N n).
Qed.

Section NotifyProperties.

Variable NO_NOTIFY : Z.
Hypothesis NO_NOTIFY_u16 : is_u16 NO_NOTIFY.

(** X8.  A turn of the transmit thread that finds the device not resetting
    and chains of 1 to 256 descriptors pending is a burst: it sets
    [tx_in_progress] and the no-notify flag, sends every pending chain once,
    whole and in order, each with the sum of its descriptor lengths modulo
    2^32, publishes each with that length, and ends with a forced flush of
    the transmit queue, which is then empty.  The receive queue is
    untouched. *)
Theorem tx_thread_drains_queue sc vu_flags w :
  is_u16 vu_flags ->
  resetting sc = 0 ->
  vq_pending (w_txq w) <> [] ->
  Forall chain_ok (vq_pending (w_txq w)) ->
  exists vu_flags' w' evs,
    pci_vtnet_tx_thread_turn NO_NOTIFY sc vu_flags w
      = Ok (TxDrained, set_tx_in_progress 1 sc, vu_flags') w' /\
    Z.land vu_flags' NO_NOTIFY = NO_NOTIFY /\
    w_trace w' = w_trace w ++ evs /\
    sends evs = (fun c => (ch_descs c, iov_total (ch_descs c) mod 2 ^ 32))
                  <$> vq_pending (w_txq w) /\
    completions VTNET_TXQ evs =
      (fun c => (ch_idx c, iov_total (ch_descs c) mod 2 ^ 32))
        <$> vq_pending (w_txq w) /\
    last evs = Some (EvEndchains VTNET_TXQ 1) /\
    vq_pending (w_txq w') = [] /\
    w_rxq w' = w_rxq w.
Proof.
  intros Hf Hreset Hne Hok.
  unfold pci_vtnet_tx_thread_turn. rewrite Hreset. cbn [Z.eqb negb].
  destruct (vq_pending (w_txq w)) as [|c rest] eqn:Hp; [congruence|].
  unfold bind at 1. unfold bind at 1. unfold vq_has_descs at 1.
  cbn [get_vq]. rewrite Hp. cbn [ret negb].
  unfold bind at 1. unfold bind at 1.
  set (w1 := emit (EvHasDescs VTNET_TXQ true) w).
  assert (Hp1 : vq_pending (w_txq w1) = c :: rest) by exact Hp.
  destruct (pci_vtnet_tx_drain_exact (length (vq_pending (w_txq w1)))
              (set_tx_in_progress 1 sc) w1)
    as (w2 & Heq & Htr & Hq & Hrx & _).
  { by rewrite Hp1. }
  { done. }
  { by rewrite Hp1. }
  rewrite Heq. rewrite Hp1 in Htr, Hq.
  destruct (tx_drain_events_sends (vsc_be sc) (c :: rest) Hok) as (Hs & Hc & _).
  eexists _, _, _. split; [reflexivity|].
  split; [rewrite vu_flags_set_lor by done; apply flag_set_test|].
  cbn [vq_endchains log emit w_trace w_txq w_rxq]. rewrite Htr, Hq, Hrx.
  unfold w1. cbn [emit w_trace w_txq w_rxq vsc_be set_tx_in_progress].
  rewrite <- !app_assoc. cbn [app].
  split; [reflexivity|].
  split; [cbn [sends]; by rewrite sends_app, Hs, app_nil_r|].
  split; [cbn [completions]; by rewrite completions_app, Hc, app_nil_r|].
  split; [by rewrite app_comm_cons, last_snoc|].
  split; [|reflexivity].
  unfold vq_pending in *. cbn [vq_ring vq_last_avail].
  rewrite <- drop_drop, Hp. apply drop_all.
Qed.

(** X9.  A turn of the transmit thread that finds the device resetting, or
    nothing pending, ends in the wait with [tx_in_progress] cleared and the
    no-notify flag cleared; it pulls, sends and publishes nothing and leaves
    both queues as they were.  While the device resets it does not even
    look at the queue. *)
Theorem tx_thread_waits sc vu_flags w :
  is_u16 vu_flags ->
  resetting sc <> 0 \/ vq_pending (w_txq w) = [] ->
  exists vu_flags' w' evs,
    pci_vtnet_tx_thread_turn NO_NOTIFY sc vu_flags w
      = Ok (TxWaits, set_tx_in_progress 0 sc, vu_flags') w' /\
    Z.land vu_flags' NO_NOTIFY = 0 /\
    w_trace w' = w_trace w ++ evs /\
    pull_count evs = 0%nat /\ sends evs = [] /\ completions VTNET_TXQ evs = [] /\
    w_txq w' = w_txq w /\ w_rxq w' = w_rxq w /\
    (resetting sc <> 0 -> evs = []).
Proof.
  intros Hf Hidle. unfold pci_vtnet_tx_thread_turn.
  destruct (Z.eqb_spec (resetting sc) 0) as [Hreset|Hreset]; cbn [negb].
  - destruct Hidle as [|Hp]; [done|].
    unfold bind, vq_has_descs, ret. cbn [get_vq]. rewrite Hp. cbn [negb emit w_txq].
    rewrite Hp. eexists _, _, _. split; [reflexivity|].
    split; [rewrite vu_flags_clear_land by done; apply flag_clear_test|].
    cbn. rewrite <- !app_assoc. split_and!; try reflexivity. done.
  - unfold bind, ret. eexists _, _, []. split; [reflexivity|].
    split; [rewrite vu_flags_clear_land by done; apply flag_clear_test|].
    rewrite app_nil_r. by split_and!.
Qed.

(** X10.  The transmit notify callback asks the queue once and changes
    nothing of it.  With nothing pending it neither touches the flags nor
    signals; with chains pending it sets the no-notify flag, leaving the
    other flag bits, and signals the transmit thread exactly when
    [tx_in_progress] is 0. *)
Theorem ping_txq_signals_idle_thread sc vu_flags w :
  is_u16 vu_flags ->
  exists vu_flags' signalled has,
    pci_vtnet_ping_txq NO_NOTIFY sc vu_flags w
      = Ok (vu_flags', signalled) (emit (EvHasDescs VTNET_TXQ has) w) /\
    (has = false <-> vq_pending (w_txq w) = []) /\
    (has = false -> vu_flags' = vu_flags /\ signalled = false) /\
    (has = true ->
     vu_flags' = Z.lor vu_flags NO_NOTIFY /\
     (signalled = true <-> tx_in_progress sc = 0)).
Proof.
  intros Hf. unfold pci_vtnet_ping_txq, bind, vq_has_descs, ret. cbn [get_vq].
  destruct (vq_pending (w_txq w)) as [|c rest]; cbn [negb];
    eexists _, _, _; (split; [reflexivity|]).
  - split_and!; try done.
  - split_and!; try done. intros _.
    split; [by apply vu_flags_set_lor|]. apply Z.eqb_eq.
Qed.

(** X11.  The receive notify callback acts once: on a device that is not
    ready it sets [vsc_rx_ready] to 1 and the no-notify flag and leaves the
    rest of the softc; on a ready device it changes nothing.  Hence a second
    notify changes nothing, and after a notify the handler discards only
    while the device resets. *)
Theorem ping_rxq_acts_once sc vu_flags :
  is_u16 vu_flags ->
  let '(sc', vu_flags') := pci_vtnet_ping_rxq NO_NOTIFY sc vu_flags in
  vsc_rx_ready sc' <> 0 /\
  (vsc_rx_ready sc = 0 ->
   sc' = set_vsc_rx_ready 1 sc /\ vu_flags' = Z.lor vu_flags NO_NOTIFY) /\
  (vsc_rx_ready sc <> 0 -> sc' = sc /\ vu_flags' = vu_flags) /\
  pci_vtnet_ping_rxq NO_NOTIFY sc' vu_flags' = (sc', vu_flags') /\
  resetting sc' = resetting sc /\ rx_merge sc' = rx_merge sc /\
  rx_vhdrlen sc' = rx_vhdrlen sc /\ vsc_config sc' = vsc_config sc.
Proof.
  intros Hf. unfold pci_vtnet_ping_rxq.
  destruct (Z.eqb_spec (vsc_rx_ready sc) 0) as [Hz|Hnz].
  - cbn. split_and!; try done. intros _. split; [done|]. by apply vu_flags_set_lor.
  - rewrite (proj2 (Z.eqb_neq _ _) Hnz). split_and!; try done.
Qed.

End NotifyProperties.

(** ** Reset: the wait for the transmit thread *)

Lemma pci_vtnet_txwait_poll_busy busy : forall rest sc w,
  Forall (fun v => v <> 0) busy ->
  pci_vtnet_txwait_poll (busy ++ 0 :: rest) sc w =
    Ok (set_tx_in_progress 0 sc)
       (mk_world (w_rxq w) (w_txq w) (w_recv w) rest
                 (w_trace w ++ replicate (length busy) (EvUsleep 10000))).
Proof.
  induction busy as [|v busy IH]; intros rest sc w Hbusy.
  - cbn. by rewrite app_nil_r.
  - apply Forall_cons in Hbusy as [Hv Hbusy].
    cbn [app pci_vtnet_txwait_poll]. rewrite (proj2 (Z.eqb_neq _ _) Hv). cbn [negb].
    unfold bind, usleep, log. rewrite IH by done.
    cbn. by rewrite <- app_assoc.
Qed.


(** X12.  [pci_vtnet_reset] returns only after a poll has found
    [tx_in_progress] clear: it sleeps 10 ms after every poll that finds it
    set, then resets the generic layer once.  On return both queues are
    empty, the polls not used are left, and the backend pointer, the
    negotiated features stored in the softc and the config registers (MAC,
    status) are what they were. *)
Theorem reset_waits_for_idle sc w busy rest :
  w_tx_in_progress w = busy ++ 0 :: rest ->
  Forall (fun v => v <> 0) busy ->
  exists sc' w',
    pci_vtnet_reset sc w = Ok sc' w' /\
    w_trace w' = w_trace w ++
      replicate (length busy) (EvUsleep 10000) ++ [EvResetDev] /\
    w_tx_in_progress w' = rest /\
    vq_pending (w_rxq w') = [] /\ vq_pending (w_txq w') = [] /\
    w_recv w' = w_recv w /\
    tx_in_progress sc' = 0 /\
    vsc_be sc' = vsc_be sc /\ vsc_features sc' = vsc_features sc /\
    vsc_config sc' = vsc_config sc.
Proof.
  intros Hpolls Hbusy.
  unfold pci_vtnet_reset, pci_vtnet_txwait, bind. rewrite Hpolls.
  rewrite pci_vtnet_txwait_poll_busy by done.
  eexists _, _. split; [reflexivity|]. cbn. rewrite <- app_assoc. by split_and!.
Qed.

Lemma reset_waits_for_idle_witness :
  w_tx_in_progress busy_world = [1; 1] ++ 0 :: [] /\
  Forall (fun v => v <> 0) [1; 1] /\
  exists sc' w',
    pci_vtnet_reset busy_softc busy_world = Ok sc' w' /\
    w_trace w' = w_trace busy_world ++
      replicate (length [1; 1]) (EvUsleep 10000) ++ [EvResetDev] /\
    w_tx_in_progress w' = [] /\
    vq_pending (w_rxq w') = [] /\ vq_pending (w_txq w') = [] /\
    w_recv w' = w_recv busy_world /\
    tx_in_progress sc' = 0 /\
    vsc_be sc' = vsc_be busy_softc /\ vsc_features sc' = vsc_features busy_softc /\
    vsc_config sc' = vsc_config busy_softc.
Proof.
  split; [reflexivity|].
  assert (Hbusy : Forall (fun v => v <> 0) [1; 1]) by (repeat constructor; lia).
  split; [exact Hbusy|].
  apply (reset_waits_for_idle busy_softc busy_world [1; 1] []);
    [reflexivity | exact Hbusy].
Defined.



(** ** Reset, notify and receive together *)

(** X14.  After [pci_vtnet_reset] has returned, the receive handler only
    discards, whatever is posted on the receive queue: its one call is a
    backend receive into the discard buffer, and it pulls and publishes
    nothing.  One notify of the receive queue ends this: the device is then
    ready and not resetting. *)
Theorem reset_quiesces_receive (NO_NOTIFY : Z) sc w sc' w' :
  pci_vtnet_reset sc w = Ok sc' w' ->
  (forall w1, exists w2,
     pci_vtnet_rx sc' w1 = Ok tt w2 /\
     w_trace w2 = w_trace w1 ++
       [EvRecv (vsc_be sc) [mk_iovec dummybuf sizeof_dummybuf] 1
               (default 0 (head (w_recv w1)))] /\
     w_rxq w2 = w_rxq w1 /\ w_txq w2 = w_txq w1) /\
  (forall vu_flags,
     let sc'' := fst (pci_vtnet_ping_rxq NO_NOTIFY sc' vu_flags) in
     vsc_rx_ready sc'' <> 0 /\ resetting sc'' = 0).
Proof.
  intros Hreset.
  destruct (pci_vtnet_reset_cases sc w) as [(_ & w1 & Heq)|(_ & w1 & Heq)];
    rewrite Heq in Hreset; [|discriminate].
  injection Hreset as <- _. split.
  - intros w1'. eexists. split; [reflexivity|]. cbn. by split_and!.
  - intros vu_flags. cbn. by split.
Qed.

Lemma reset_quiesces_receive_witness :
  exists sc' w',
    pci_vtnet_reset busy_softc busy_world = Ok sc' w' /\
    (forall w1, exists w2,
       pci_vtnet_rx sc' w1 = Ok tt w2 /\
       w_trace w2 = w_trace w1 ++
         [EvRecv (vsc_be busy_softc) [mk_iovec dummybuf sizeof_dummybuf] 1
                 (default 0 (head (w_recv w1)))] /\
       w_rxq w2 = w_rxq w1 /\ w_txq w2 = w_txq w1) /\
    (forall vu_flags,
       let sc'' := fst (pci_vtnet_ping_rxq 1 sc' vu_flags) in
       vsc_rx_ready sc'' <> 0 /\ resetting sc'' = 0).
Proof.
  eexists _, _. split; [lazy; reflexivity|].
  eapply (reset_quiesces_receive 1 busy_softc busy_world). lazy. reflexivity.
Defined.

(** ** Config space: reads, and reads after writes *)

Lemma le_bytes_S value n :
  le_bytes value (S n) = Z.land value 255 :: le_bytes (Z.shiftr value 8) n.
Proof.
  unfold le_bytes. cbn [seq fmap list_fmap]. f_equal.
  rewrite <- fmap_S_seq, <- list_fmap_compose.
  apply list_fmap_ext. intros _ k _. unfold compose.
  rewrite Z.shiftr_shiftr by lia. do 2 f_equal. lia.
Qed.

Lemma le_bytes_is_byte value n : Forall is_byte (le_bytes value n).
Proof.
  unfold le_bytes. apply Forall_fmap, Forall_forall. intros k _. cbn.
  unfold is_byte. change 255 with (Z.ones 8). rewrite Z.land_ones by lia.
  apply Z.mod_pos_bound. lia.
Qed.

(** Splitting a word into bytes undoes putting bytes together. *)
Lemma le_bytes_le_combine bytes :
  Forall is_byte bytes -> le_bytes (le_combine bytes) (length bytes) = bytes.
Proof.
  induction 1 as [|b bytes Hb _ IH]; [reflexivity|].
  cbn [length le_combine foldr]. fold (le_combine bytes). rewrite le_bytes_S.
  unfold is_byte in Hb. f_equal.
  - change 255 with (Z.ones 8). rewrite Z.land_ones by lia. change (2 ^ 8) with 256.
    replace (b + 256 * le_combine bytes) with (b + le_combine bytes * 256) by lia.
    rewrite Z.mod_add by lia. apply Z.mod_small. lia.
  - rewrite Z.shiftr_div_pow2 by lia. change (2 ^ 8) with 256.
    replace (b + 256 * le_combine bytes) with (b + le_combine bytes * 256) by lia.
    rewrite Z.div_add by lia. rewrite Z.div_small by lia. by rewrite Z.add_0_l.
Qed.

Lemma config_bytes_length c :
  length (mac c) = 6%nat -> length (config_bytes c) = 10%nat.
Proof.
  intros H. unfold config_bytes. rewrite !length_app, !le_bytes_length. lia.
Qed.

Lemma config_bytes_is_byte c :
  Forall is_byte (mac c) -> Forall is_byte (config_bytes c).
Proof.
  intros H. unfold config_bytes. rewrite !Forall_app.
  split_and!; [done|apply le_bytes_is_byte..].
Qed.

(** A read within the register block, spelled out. *)
Lemma pci_vtnet_cfgread_ok sc offset size retval w :
  length (mac (vsc_config sc)) = 6%nat ->
  Forall is_byte (mac (vsc_config sc)) ->
  0 <= offset -> 0 <= size <= 4 -> offset + size <= 10 ->
  exists r,
    pci_vtnet_cfgread sc offset size retval w = Ok (0, r) w /\
    le_bytes r 4 =
      take (Z.to_nat size) (drop (Z.to_nat offset) (config_bytes (vsc_config sc)))
      ++ drop (Z.to_nat size) (le_bytes retval 4).
Proof.
  intros Hlen Hmac Hoff Hsize Hfit.
  unfold pci_vtnet_cfgread, sizeof_virtio_net_config, ret.
  replace (offset <? 0) with false by (symmetry; apply Z.ltb_ge; lia).
  replace (size <? 0) with false by (symmetry; apply Z.ltb_ge; lia).
  replace (4 <? size) with false by (symmetry; apply Z.ltb_ge; lia).
  replace (10 <? offset + size) with false by (symmetry; apply Z.ltb_ge; lia).
  cbn [orb]. eexists. split; [reflexivity|].
  set (bytes := take _ _ ++ drop _ _).
  assert (Hl : length bytes = 4%nat).
  { unfold bytes. rewrite length_app, length_take, !length_drop.
    rewrite config_bytes_length, le_bytes_length by done. lia. }
  rewrite <- Hl. apply le_bytes_le_combine. unfold bytes.
  apply Forall_app. split.
  - by apply Forall_take, Forall_drop, config_bytes_is_byte.
  - apply Forall_drop, le_bytes_is_byte.
Qed.

Lemma Forall_list_inserts {A} (P : A -> Prop) k : forall i l,
  Forall P l -> Forall P k -> Forall P (list_inserts i k l).
Proof.
  induction k as [|y k IH]; intros i l Hl Hk; [done|].
  apply Forall_cons in Hk as [Hy Hk]. cbn. apply Forall_insert; [by apply IH|done].
Qed.

(** A write within the MAC, spelled out. *)
Lemma pci_vtnet_cfgwrite_ok sc offset size value w :
  0 <= offset < 6 -> 0 <= size <= 4 -> offset + size <= 6 ->
  pci_vtnet_cfgwrite sc offset size value w =
    Ok (0, set_vsc_config
             (set_mac (list_inserts (Z.to_nat offset) (le_bytes value (Z.to_nat size))
                                    (mac (vsc_config sc)))
                      (vsc_config sc)) sc) w.
Proof.
  intros Hoff Hsize Hfit.
  unfold pci_vtnet_cfgwrite, sizeof_mac, bind, assert, ret, raise.
  replace (in_int (offset + size)) with true.
  2:{ symmetry. unfold in_int, INT_MIN, INT_MAX. apply andb_true_iff.
      rewrite !Z.leb_le. lia. }
  replace (offset <? 6) with true by (symmetry; apply Z.ltb_lt; lia).
  replace (offset + size <=? 6) with true by (symmetry; apply Z.leb_le; lia).
  replace (offset <? 0) with false by (symmetry; apply Z.ltb_ge; lia).
  replace (size <? 0) with false by (symmetry; apply Z.ltb_ge; lia).
  replace (4 <? size) with false by (symmetry; apply Z.ltb_ge; lia).
  reflexivity.
Qed.

(** X15.  A read of [size] bytes (at most 4) at [offset] that stays within
    the 10 bytes of the register block returns 0 and overwrites the first
    [size] bytes of [*retval] with the bytes of the block from [offset] on,
    whatever fields they belong to; the other bytes of [*retval] keep their
    value.  The state is not changed. *)
Theorem cfgread_window sc offset size retval w :
  length (mac (vsc_config sc)) = 6%nat ->
  Forall is_byte (mac (vsc_config sc)) ->
  0 <= offset -> 0 <= size <= 4 -> offset + size <= 10 ->
  exists r,
    pci_vtnet_cfgread sc offset size retval w = Ok (0, r) w /\
    (forall k : nat,
       (k < 4)%nat ->
       le_bytes r 4 !! k =
         if decide (Z.of_nat k < size)
         then config_bytes (vsc_config sc) !! (Z.to_nat offset + k)%nat
         else le_bytes retval 4 !! k).
Proof.
  intros Hlen Hmac Hoff Hsize Hfit.
  destruct (pci_vtnet_cfgread_ok sc offset size retval w) as (r & Heq & Hr); try done.
  exists r. split; [exact Heq|]. intros k Hk. rewrite Hr.
  assert (Hw : length (take (Z.to_nat size)
                 (drop (Z.to_nat offset) (config_bytes (vsc_config sc))))
               = Z.to_nat size).
  { rewrite length_take, length_drop, config_bytes_length by done. lia. }
  destruct (decide (Z.of_nat k < size)) as [Hin|Hout].
  - rewrite lookup_app_l by lia. rewrite lookup_take_lt by lia. apply lookup_drop.
  - rewrite lookup_app_r by lia. rewrite Hw, lookup_drop. f_equal. lia.
Qed.

Lemma cfgread_window_witness :
  length (mac (vsc_config ready_softc)) = 6%nat /\
  Forall is_byte (mac (vsc_config ready_softc)) /\
  0 <= 4 /\ 0 <= 4 <= 4 /\ 4 + 4 <= 10 /\
  exists r,
    pci_vtnet_cfgread ready_softc 4 4 4294967295 empty_world = Ok (0, r) empty_world /\
    (forall k : nat,
       (k < 4)%nat ->
       le_bytes r 4 !! k =
         if decide (Z.of_nat k < 4)
         then config_bytes (vsc_config ready_softc) !! (Z.to_nat 4 + k)%nat
         else le_bytes 4294967295 4 !! k).
Proof.
  assert (Hb : Forall is_byte (mac (vsc_config ready_softc))).
  { repeat constructor; unfold is_byte; lia. }
  split; [reflexivity|]. split; [exact Hb|].
  split; [lia|]. split; [lia|]. split; [lia|].
  apply (cfgread_window ready_softc 4 4 4294967295 empty_world);
    [reflexivity | exact Hb | lia | lia | lia].
Defined.

(** X16.  After a write of [size] bytes of [value] at an offset within the
    MAC, a read of the same window returns 0 with those bytes in the first
    [size] bytes of [*retval] and the other bytes of [*retval] as they
    were. *)
Theorem cfgwrite_cfgread_roundtrip sc offset size value retval w :
  length (mac (vsc_config sc)) = 6%nat ->
  Forall is_byte (mac (vsc_config sc)) ->
  0 <= offset < 6 -> 0 <= size <= 4 -> offset + size <= 6 ->
  exists sc' r,
    pci_vtnet_cfgwrite sc offset size value w = Ok (0, sc') w /\
    pci_vtnet_cfgread sc' offset size retval w = Ok (0, r) w /\
    take (Z.to_nat size) (le_bytes r 4) = le_bytes value (Z.to_nat size) /\
    drop (Z.to_nat size) (le_bytes r 4) = drop (Z.to_nat size) (le_bytes retval 4).
Proof.
  intros Hlen Hmac Hoff Hsize Hfit.
  rewrite pci_vtnet_cfgwrite_ok by done.
  set (bytes := le_bytes value (Z.to_nat size)).
  set (sc' := set_vsc_config _ sc).
  assert (Hb : length bytes = Z.to_nat size) by apply le_bytes_length.
  assert (Hlen' : length (mac (vsc_config sc')) = 6%nat).
  { unfold sc'. cbn. by rewrite length_inserts. }
  assert (Hmac' : Forall is_byte (mac (vsc_config sc'))).
  { unfold sc'. cbn. apply Forall_list_inserts; [done|apply le_bytes_is_byte]. }
  destruct (pci_vtnet_cfgread_ok sc' offset size retval w Hlen' Hmac')
    as (r & Heq & Hr); [lia..|].
  exists sc', r. split; [reflexivity|]. split; [exact Heq|].
  assert (Hwin : take (Z.to_nat size)
                   (drop (Z.to_nat offset) (config_bytes (vsc_config sc'))) = bytes).
  { apply list_eq. intros k.
    destruct (decide (k < Z.to_nat size)%nat) as [Hk|Hk].
    - rewrite lookup_take_lt, lookup_drop by done.
      unfold config_bytes. rewrite lookup_app_l by lia.
      unfold sc'. cbn. rewrite list_lookup_inserts by lia. f_equal. lia.
    - rewrite lookup_take_ge by lia. symmetry. apply lookup_ge_None. lia. }
  rewrite Hr, Hwin. split.
  - by rewrite take_app_length' by done.
  - by rewrite drop_app_length' by done.
Qed.

Lemma cfgwrite_cfgread_roundtrip_witness :
  length (mac (vsc_config ready_softc)) = 6%nat /\
  Forall is_byte (mac (vsc_config ready_softc)) /\
  0 <= 2 < 6 /\ 0 <= 4 <= 4 /\ 2 + 4 <= 6 /\
  exists sc' r,
    pci_vtnet_cfgwrite ready_softc 2 4 287454020 empty_world = Ok (0, sc') empty_world /\
    pci_vtnet_cfgread sc' 2 4 0 empty_world = Ok (0, r) empty_world /\
    take (Z.to_nat 4) (le_bytes r 4) = le_bytes 287454020 (Z.to_nat 4) /\
    drop (Z.to_nat 4) (le_bytes r 4) = drop (Z.to_nat 4) (le_bytes 0 4).
Proof.
  assert (Hb : Forall is_byte (mac (vsc_config ready_softc))).
  { repeat constructor; unfold is_byte; lia. }
  split; [reflexivity|]. split; [exact Hb|].
  split; [lia|]. split; [lia|]. split; [lia|].
  apply (cfgwrite_cfgread_roundtrip ready_softc 2 4 287454020 0 empty_world);
    [reflexivity | exact Hb | lia | lia | lia].
Defined.

(** X17.  Whatever write returns, the MAC still has six entries and they
    are still bytes; status and queue-pair count are what they were, and no
    other field of the softc has changed. *)
Theorem cfgwrite_keeps_block_shape sc offset size value w rc sc' w' :
  length (mac (vsc_config sc)) = 6%nat ->
  Forall is_byte (mac (vsc_config sc)) ->
  pci_vtnet_cfgwrite sc offset size value w = Ok (rc, sc') w' ->
  rc = 0 /\ w' = w /\
  length (mac (vsc_config sc')) = 6%nat /\
  Forall is_byte (mac (vsc_config sc')) /\
  status (vsc_config sc') = status (vsc_config sc) /\
  max_virtqueue_pairs (vsc_config sc') = max_virtqueue_pairs (vsc_config sc) /\
  set_vsc_config (vsc_config sc) sc' = set_vsc_config (vsc_config sc) sc.
Proof.
  intros Hlen Hmac. unfold pci_vtnet_cfgwrite, bind, assert, ret, raise.
  destruct (offset <? sizeof_mac); [|intros [= <- <- <-]; by split_and!].
  destruct (negb (in_int (offset + size))); [discriminate|].
  destruct (offset + size <=? sizeof_mac); [|discriminate].
  destruct ((offset <? 0) || (size <? 0) || (4 <? size)); [discriminate|].
  intros [= <- <- <-]. cbn. rewrite length_inserts.
  split_and!; try done. apply Forall_list_inserts; [done|apply le_bytes_is_byte].
Qed.

Lemma cfgwrite_keeps_block_shape_witness :
  length (mac (vsc_config ready_softc)) = 6%nat /\
  Forall is_byte (mac (vsc_config ready_softc)) /\
  exists sc',
    pci_vtnet_cfgwrite ready_softc 0 4 4294967295 empty_world
      = Ok (0, sc') empty_world /\
    0 = 0 /\ empty_world = empty_world /\
    length (mac (vsc_config sc')) = 6%nat /\
    Forall is_byte (mac (vsc_config sc')) /\
    status (vsc_config sc') = status (vsc_config ready_softc) /\
    max_virtqueue_pairs (vsc_config sc')
      = max_virtqueue_pairs (vsc_config ready_softc) /\
    set_vsc_config (vsc_config ready_softc) sc'
      = set_vsc_config (vsc_config ready_softc) ready_softc.
Proof.
  assert (Hb : Forall is_byte (mac (vsc_config ready_softc))).
  { repeat constructor; unfold is_byte; lia. }
  split; [reflexivity|]. split; [exact Hb|].
  eexists. split; [lazy; reflexivity|].
  apply (cfgwrite_keeps_block_shape ready_softc 0 4 4294967295 empty_world);
    [reflexivity | exact Hb | lazy; reflexivity].
Defined.

(** ** Feature negotiation across resets *)

(** X18.  In the state [pci_vtnet_reset] returns, one negotiation leaves
    the header length and the merge flag in step: 12 bytes and merged when
    the merged-receive-buffer bit is negotiated, 10 bytes and not merged
    otherwise; the backend is told that length.  The device stays not
    ready. *)
Theorem neg_features_after_reset (MRG_RXBUF : Z) sc w sc1 w1 bits w2 :
  pci_vtnet_reset sc w = Ok sc1 w1 ->
  exists sc2,
    pci_vtnet_neg_features MRG_RXBUF sc1 bits w2 =
      Ok sc2 (emit (EvSetCap (vsc_be sc) bits (rx_vhdrlen sc2)) w2) /\
    vsc_rx_ready sc2 = 0 /\
    ((Z.land bits MRG_RXBUF <> 0 /\ rx_merge sc2 = 1 /\ rx_vhdrlen sc2 = 12) \/
     (Z.land bits MRG_RXBUF = 0 /\ rx_merge sc2 = 0 /\ rx_vhdrlen sc2 = 10)).
Proof.
  intros Hreset.
  destruct (pci_vtnet_reset_cases sc w) as [(_ & w' & Heq)|(_ & w' & Heq)];
    rewrite Heq in Hreset; [|discriminate].
  injection Hreset as <- _.
  unfold pci_vtnet_neg_features, bind, netbe_set_cap, log, ret.
  destruct (Z.eqb_spec (Z.land bits MRG_RXBUF) 0) as [Hz|Hnz];
    (eexists; split; [reflexivity|]); cbn; (split; [done|]).
  - right. by split_and!.
  - left. by split_and!.
Qed.

Lemma neg_features_after_reset_witness :
  exists sc1 w1,
    pci_vtnet_reset busy_softc busy_world = Ok sc1 w1 /\
    exists sc2,
      pci_vtnet_neg_features 32768 sc1 33 empty_world =
        Ok sc2 (emit (EvSetCap (vsc_be busy_softc) 33 (rx_vhdrlen sc2)) empty_world) /\
      vsc_rx_ready sc2 = 0 /\
      ((Z.land 33 32768 <> 0 /\ rx_merge sc2 = 1 /\ rx_vhdrlen sc2 = 12) \/
       (Z.land 33 32768 = 0 /\ rx_merge sc2 = 0 /\ rx_vhdrlen sc2 = 10)).
Proof.
  eexists _, _. split; [lazy; reflexivity|].
  eapply (neg_features_after_reset 32768 busy_softc busy_world). lazy. reflexivity.
Defined.

(** X19.  Negotiation only ever leaves merged mode: after a negotiation
    without the merged-receive-buffer bit, a second one without a reset in
    between keeps [rx_merge] at 0 even when it has the bit, and stores its
    bits all the same; the header length stays 2 shorter when the second
    has the bit and gets 2 shorter again when it has not. *)
Theorem neg_features_never_restores (MRG_RXBUF : Z) sc b1 b2 w sc1 w1 sc2 w2 :
  4 <= rx_vhdrlen sc < UINT32_MOD ->
  Z.land b1 MRG_RXBUF = 0 ->
  pci_vtnet_neg_features MRG_RXBUF sc b1 w = Ok sc1 w1 ->
  pci_vtnet_neg_features MRG_RXBUF sc1 b2 w1 = Ok sc2 w2 ->
  vsc_features sc2 = b2 /\ rx_merge sc2 = 0 /\
  (Z.land b2 MRG_RXBUF <> 0 -> rx_vhdrlen sc2 = rx_vhdrlen sc - 2) /\
  (Z.land b2 MRG_RXBUF = 0 -> rx_vhdrlen sc2 = rx_vhdrlen sc - 4).
Proof.
  intros Hlen Hb1. unfold pci_vtnet_neg_features, bind, netbe_set_cap, log, ret.
  rewrite (proj2 (Z.eqb_eq _ _) Hb1). intros [= <- <-].
  assert (H1 : (rx_vhdrlen sc - 2) mod UINT32_MOD = rx_vhdrlen sc - 2)
    by (apply Z.mod_small; lia).
  destruct (Z.eqb_spec (Z.land b2 MRG_RXBUF) 0) as [Hz|Hnz]; intros [= <- _]; cbn.
  - rewrite H1. split_and!; try done. intros _.
    rewrite Z.mod_small by lia. lia.
  - rewrite H1. by split_and!.
Qed.

Lemma neg_features_never_restores_witness :
  4 <= rx_vhdrlen ready_softc < UINT32_MOD /\
  Z.land 33 32768 = 0 /\
  exists sc1 w1 sc2 w2,
    pci_vtnet_neg_features 32768 ready_softc 33 empty_world = Ok sc1 w1 /\
    pci_vtnet_neg_features 32768 sc1 (33 + 32768) w1 = Ok sc2 w2 /\
    vsc_features sc2 = 33 + 32768 /\ rx_merge sc2 = 0 /\
    (Z.land (33 + 32768) 32768 <> 0 -> rx_vhdrlen sc2 = rx_vhdrlen ready_softc - 2) /\
    (Z.land (33 + 32768) 32768 = 0 -> rx_vhdrlen sc2 = rx_vhdrlen ready_softc - 4).
Proof.
  split; [vm_compute; split; congruence|]. split; [reflexivity|].
  eexists _, _, _, _. split; [lazy; reflexivity|]. split; [lazy; reflexivity|].
  eapply (neg_features_never_restores 32768 ready_softc 33 (33 + 32768) empty_world);
    [vm_compute; split; congruence | reflexivity | lazy; reflexivity | lazy; reflexivity].
Defined.

(** ** Attach: return code, MAC and backend *)

Section AttachMore.

Variable net_parsemac : string -> Z * list Z.
Variable net_genmac : pci_devinst -> list Z.
Variable netbe_init : string -> option Z.
Variable netbe_get_cap : Z -> Z.
Variable vi_intr_init : Z -> Z -> Z.
Variable fbsdrun_virtio_msix : Z.
Variable VTNET_S_HOSTCAPS : Z.

Local Abbreviation init :=
  (pci_vtnet_init net_parsemac net_genmac netbe_init netbe_get_cap
                  vi_intr_init fbsdrun_virtio_msix VTNET_S_HOSTCAPS).

(** [pci_vtnet_init] in closed form: its three ways out. *)
Lemma pci_vtnet_init_closed pi opts w :
  let err := init_mac_error net_parsemac opts in
  let be := init_backend netbe_init opts in
  let hv_caps := match be with
                 | Some b => Z.lor VTNET_S_HOSTCAPS (netbe_get_cap b)
                 | None => VTNET_S_HOSTCAPS
                 end in
  let linked := init_linked_softc be opts (init_mac net_parsemac net_genmac pi opts) in
  exists sc_err,
    vsc_be sc_err = None /\
    init pi opts w =
      if negb (err =? 0) then Ok (err, sc_err) w
      else if negb (vi_intr_init 1 fbsdrun_virtio_msix =? 0)
      then Ok (1, linked) (emit (EvSoftcLinkup hv_caps) w)
      else Ok (0, set_rx_vhdrlen sizeof_virtio_net_rxhdr (set_rx_merge 1 linked))
              (emit EvTxThreadCreate
                 (emit (EvSetIoBar 0) (emit (EvSoftcLinkup hv_caps) w))).
Proof.
  cbv zeta.
  unfold pci_vtnet_init, init_opts, init_mac_error, init_mac, init_backend,
    init_linked_softc, bind, log, ret.
  destruct opts as [o|].
  - destruct (strsep o ","%char) as [devname [m|]]; cbn [fst snd].
    + destruct (net_parsemac m) as [err bytes]. cbn [fst snd].
      destruct (Z.eqb_spec err 0) as [->|Hne].
      * cbn [Z.eqb negb]. eexists (set_vsc_be None softc_calloc).
        split; [reflexivity|].
        destruct (netbe_init devname);
          destruct (vi_intr_init 1 fbsdrun_virtio_msix =? 0); reflexivity.
      * pose proof (proj2 (Z.eqb_neq _ _) Hne) as He.
        rewrite ?He. cbn [negb]. cbv beta iota zeta. rewrite ?He. cbn [negb].
        eexists. split; [|reflexivity]. reflexivity.
    + cbn [Z.eqb negb]. eexists (set_vsc_be None softc_calloc). split; [reflexivity|].
      destruct (netbe_init devname);
        destruct (vi_intr_init 1 fbsdrun_virtio_msix =? 0); reflexivity.
  - cbn [Z.eqb negb]. eexists (set_vsc_be None softc_calloc). split; [reflexivity|].
    destruct (vi_intr_init 1 fbsdrun_virtio_msix =? 0); reflexivity.
Qed.

(** X20.  [pci_vtnet_init] returns the error of the MAC parser if there is
    one, and then nothing has been set up: no call on the virtio layer, no
    transmit thread, no backend.  Otherwise it returns 1 if interrupt setup
    fails, after linking the device to the virtio layer, and 0 if not.  The
    register window is mapped and the transmit thread started exactly when
    it returns 0. *)
Theorem init_return_code pi opts w :
  exists rc sc w' evs,
    init pi opts w = Ok (rc, sc) w' /\
    w_trace w' = w_trace w ++ evs /\
    (init_mac_error net_parsemac opts <> 0 ->
     rc = init_mac_error net_parsemac opts /\ evs = [] /\ vsc_be sc = None) /\
    (init_mac_error net_parsemac opts = 0 ->
     rc = (if vi_intr_init 1 fbsdrun_virtio_msix =? 0 then 0 else 1) /\
     exists hv_caps rest, evs = EvSoftcLinkup hv_caps :: rest) /\
    (In EvTxThreadCreate evs <-> rc = 0) /\
    (In (EvSetIoBar 0) evs <-> rc = 0).
Proof.
  destruct (pci_vtnet_init_closed pi opts w) as (sc_err & Hbe & Heq).
  cbv zeta in Heq. rewrite Heq.
  destruct (Z.eqb_spec (init_mac_error net_parsemac opts) 0) as [Herr|Herr];
    cbn [negb].
  - destruct (Z.eqb_spec (vi_intr_init 1 fbsdrun_virtio_msix) 0) as [Hi|Hi];
      cbn [negb]; eexists _, _, _, _; (split; [reflexivity|]); cbn;
      rewrite <- ?app_assoc; (split; [reflexivity|]).
    + split; [done|]. split; [intros _; split; [done|]; by eexists _, _|].
      cbn. split; (split; [done|tauto]).
    + split; [done|]. split; [intros _; split; [done|]; by eexists _, _|].
      cbn. split; (split; [intros [|[]]; discriminate|lia]).
  - exists (init_mac_error net_parsemac opts), sc_err, w, [].
    split; [reflexivity|]. split; [by rewrite app_nil_r|].
    split; [done|]. split; [done|]. cbn. split; (split; [tauto|lia]).
Qed.

(** X21.  When the MAC of the options, if any, parses, the MAC register
    holds that MAC, or the generated one if the options give none, whether
    or not the backend opens and interrupt setup succeeds. *)
Theorem init_mac_register pi opts w :
  init_mac_error net_parsemac opts = 0 ->
  exists rc sc w',
    init pi opts w = Ok (rc, sc) w' /\
    mac (vsc_config sc) =
      match opts with
      | Some o =>
          match snd (strsep o ","%char) with
          | Some m => snd (net_parsemac m)
          | None => net_genmac pi
          end
      | None => net_genmac pi
      end.
Proof.
  intros Herr.
  destruct (pci_vtnet_init_closed pi opts w) as (sc_err & Hbe & Heq).
  cbv zeta in Heq. rewrite Heq, Herr. cbn [Z.eqb negb].
  destruct (vi_intr_init 1 fbsdrun_virtio_msix =? 0); cbn [negb];
    eexists _, _, _; (split; [reflexivity|]); reflexivity.
Qed.

(** X22.  When the options name a backend that opens (and their MAC, if
    any, parses), the softc points to that backend, the status register
    reads 1 (link up), and the capabilities handed to the virtio layer are
    those of the frontend or-ed with those the backend reports. *)
Theorem init_backend_opened pi o be w :
  init_mac_error net_parsemac (Some o) = 0 ->
  netbe_init (fst (strsep o ","%char)) = Some be ->
  exists rc sc w' rest,
    init pi (Some o) w = Ok (rc, sc) w' /\
    vsc_be sc = Some be /\
    status (vsc_config sc) = 1 /\
    w_trace w' = w_trace w ++
      EvSoftcLinkup (Z.lor VTNET_S_HOSTCAPS (netbe_get_cap be)) :: rest.
Proof.
  intros Herr Hopen.
  destruct (pci_vtnet_init_closed pi (Some o) w) as (sc_err & Hbe & Heq).
  cbv zeta in Heq. rewrite Heq, Herr. cbn [Z.eqb negb init_backend].
  rewrite Hopen.
  destruct (vi_intr_init 1 fbsdrun_virtio_msix =? 0); cbn [negb];
    eexists _, _, _, _; (split; [reflexivity|]); cbn;
    rewrite <- ?app_assoc; split_and!; reflexivity.
Qed.

End AttachMore.

(** ** Instances of the properties of the transmit thread, the notify
    callbacks and the attach routine *)

Lemma is_u16_1 : is_u16 1.
Proof. unfold is_u16. lia. Qed.

Lemma is_u16_0 : is_u16 0.
Proof. unfold is_u16. lia. Qed.

Lemma tx_thread_drains_queue_witness :
  is_u16 1 /\ is_u16 0 /\ resetting ready_softc = 0 /\
  vq_pending (w_txq tx_world) <> [] /\
  Forall chain_ok (vq_pending (w_txq tx_world)) /\
  exists vu_flags' w' evs,
    pci_vtnet_tx_thread_turn 1 ready_softc 0 tx_world
      = Ok (TxDrained, set_tx_in_progress 1 ready_softc, vu_flags') w' /\
    Z.land vu_flags' 1 = 1 /\
    w_trace w' = w_trace tx_world ++ evs /\
    sends evs = (fun c => (ch_descs c, iov_total (ch_descs c) mod 2 ^ 32))
                  <$> vq_pending (w_txq tx_world) /\
    completions VTNET_TXQ evs =
      (fun c => (ch_idx c, iov_total (ch_descs c) mod 2 ^ 32))
        <$> vq_pending (w_txq tx_world) /\
    last evs = Some (EvEndchains VTNET_TXQ 1) /\
    vq_pending (w_txq w') = [] /\
    w_rxq w' = w_rxq tx_world.
Proof.
  assert (Hok : Forall chain_ok (vq_pending (w_txq tx_world))).
  { repeat constructor; unfold chain_ok; cbn; lia. }
  split; [exact is_u16_1|]. split; [exact is_u16_0|]. split; [reflexivity|].
  split; [discriminate|]. split; [exact Hok|].
  apply (tx_thread_drains_queue 1 is_u16_1 ready_softc 0 tx_world);
    [exact is_u16_0 | reflexivity | discriminate | exact Hok].
Defined.

Lemma tx_thread_waits_witness :
  is_u16 1 /\
  (resetting (set_resetting 1 ready_softc) <> 0 \/ vq_pending (w_txq tx_world) = []) /\
  exists vu_flags' w' evs,
    pci_vtnet_tx_thread_turn 1 (set_resetting 1 ready_softc) 1 tx_world
      = Ok (TxWaits, set_tx_in_progress 0 (set_resetting 1 ready_softc), vu_flags') w' /\
    Z.land vu_flags' 1 = 0 /\
    w_trace w' = w_trace tx_world ++ evs /\
    pull_count evs = 0%nat /\ sends evs = [] /\ completions VTNET_TXQ evs = [] /\
    w_txq w' = w_txq tx_world /\ w_rxq w' = w_rxq tx_world /\
    (resetting (set_resetting 1 ready_softc) <> 0 -> evs = []).
Proof.
  split; [exact is_u16_1|]. split; [left; discriminate|].
  apply (tx_thread_waits 1 (set_resetting 1 ready_softc) 1 tx_world);
    [exact is_u16_1 | left; discriminate].
Defined.

Lemma ping_txq_signals_idle_thread_witness :
  is_u16 1 /\ is_u16 0 /\
  exists vu_flags' signalled has,
    pci_vtnet_ping_txq 1 ready_softc 0 tx_world
      = Ok (vu_flags', signalled) (emit (EvHasDescs VTNET_TXQ has) tx_world) /\
    (has = false <-> vq_pending (w_txq tx_world) = []) /\
    (has = false -> vu_flags' = 0 /\ signalled = false) /\
    (has = true ->
     vu_flags' = Z.lor 0 1 /\
     (signalled = true <-> tx_in_progress ready_softc = 0)).
Proof.
  split; [exact is_u16_1|]. split; [exact is_u16_0|].
  apply (ping_txq_signals_idle_thread 1 is_u16_1 ready_softc 0 tx_world).
  exact is_u16_0.
Defined.

Lemma ping_rxq_acts_once_witness :
  is_u16 1 /\ is_u16 0 /\
  let '(sc', vu_flags') := pci_vtnet_ping_rxq 1 softc_calloc 0 in
  vsc_rx_ready sc' <> 0 /\
  (vsc_rx_ready softc_calloc = 0 ->
   sc' = set_vsc_rx_ready 1 softc_calloc /\ vu_flags' = Z.lor 0 1) /\
  (vsc_rx_ready softc_calloc <> 0 -> sc' = softc_calloc /\ vu_flags' = 0) /\
  pci_vtnet_ping_rxq 1 sc' vu_flags' = (sc', vu_flags') /\
  resetting sc' = resetting softc_calloc /\ rx_merge sc' = rx_merge softc_calloc /\
  rx_vhdrlen sc' = rx_vhdrlen softc_calloc /\
  vsc_config sc' = vsc_config softc_calloc.
Proof.
  split; [exact is_u16_1|]. split; [exact is_u16_0|].
  apply (ping_rxq_acts_once 1 is_u16_1 softc_calloc 0). exact is_u16_0.
Defined.

Lemma init_mac_register_witness :
  let parse := fun _ : string => (0, [2; 0; 0; 0; 0; 1]) in
  let gen := fun _ : pci_devinst => [2; 0; 0; 0; 0; 2] in
  init_mac_error parse (Some "tap0,02:00:00:00:00:01"%string) = 0 /\
  exists rc sc w',
    pci_vtnet_init parse gen (fun _ => Some 1) (fun _ => 0) (fun _ _ => 0) 1 35
                   (mk_pi 2 0) (Some "tap0,02:00:00:00:00:01"%string) empty_world
      = Ok (rc, sc) w' /\
    mac (vsc_config sc) =
      match snd (strsep "tap0,02:00:00:00:00:01" ","%char) with
      | Some m => snd (parse m)
      | None => gen (mk_pi 2 0)
      end.
Proof.
  cbv zeta. split; [reflexivity|].
  apply (init_mac_register
           (fun _ => (0, [2; 0; 0; 0; 0; 1])) (fun _ => [2; 0; 0; 0; 0; 2])
           (fun _ => Some 1) (fun _ => 0) (fun _ _ => 0) 1 35
           (mk_pi 2 0) (Some "tap0,02:00:00:00:00:01"%string) empty_world).
  reflexivity.
Defined.

Lemma init_backend_opened_witness :
  let parse := fun _ : string => (0, [2; 0; 0; 0; 0; 1]) in
  let open := fun _ : string => Some 7 in
  let cap := fun _ : Z => 1024 in
  init_mac_error parse (Some "tap0"%string) = 0 /\
  open (fst (strsep "tap0" ","%char)) = Some 7 /\
  exists rc sc w' rest,
    pci_vtnet_init parse (fun _ => [2; 0; 0; 0; 0; 2]) open cap (fun _ _ => 0) 1 35
                   (mk_pi 2 0) (Some "tap0"%string) empty_world
      = Ok (rc, sc) w' /\
    vsc_be sc = Some 7 /\
    status (vsc_config sc) = 1 /\
    w_trace w' = w_trace empty_world ++ EvSoftcLinkup (Z.lor 35 (cap 7)) :: rest.
Proof.
  cbv zeta. split; [reflexivity|]. split; [reflexivity|].
  apply (init_backend_opened
           (fun _ => (0, [2; 0; 0; 0; 0; 1])) (fun _ => [2; 0; 0; 0; 0; 2])
           (fun _ => Some 7) (fun _ => 1024) (fun _ _ => 0) 1 35
           (mk_pi 2 0) "tap0"%string 7 empty_world); reflexivity.
Defined.
